(** * GDI importance data layers (gdi/imp_layers.py)

    A shallow embedding of the two Caffe data layers [GDIDataLayerImp] and
    [GDIValDataLayer]: configuration, manifest loading, the cursor that
    walks the index list, and the image / label preprocessing.

    Python values are modelled as follows.
    - [str] is [string]; a character stands for a code point below 256.
    - Python integers are [Z]; uint8 pixels are [Z] in [0, 255].
    - numpy float64 is the kernel's binary64 [float]; a float32 value is a
      [float] that went through [to_float32].
    - numpy arrays are nested lists, outermost axis first.
    - an exception is the [Raise] case of [result].
    - the module-level generator of [random] is an explicit state that
      [setup] and [forward] thread through. *)

From Stdlib Require Import ZArith Bool Ascii String List Lia.
From Stdlib Require Import PrimFloat SpecFloat FloatOps Uint63.
Import ListNotations.

Local Open Scope string_scope.
Local Open Scope Z_scope.

(** ** Exceptions and the error monad *)

Inductive exn : Type :=
| KeyError (key : string)
| Exception (msg : string)
| IOError (path : string)
| IndexError
| ValueError
| AttributeError (attr : string).

Inductive result (A : Type) : Type :=
| Ok (a : A)
| Raise (e : exn).

Arguments Ok {A} a.
Arguments Raise {A} e.

Definition bind {A B : Type} (r : result A) (k : A -> result B) : result B :=
  match r with
  | Ok a => k a
  | Raise e => Raise e
  end.

Notation "x <- r ;; k" := (bind r (fun x => k))
  (at level 61, r at next level, right associativity).
Notation "' p <- r ;; k" := (bind r (fun x => let p := x in k))
  (at level 61, p pattern, r at next level, right associativity).

Definition is_ok {A : Type} (r : result A) : bool :=
  match r with Ok _ => true | Raise _ => false end.

(** ** Strings *)

(** [needle in hay] *)
Fixpoint contains (needle hay : string) : bool :=
  String.prefix needle hay ||
  match hay with
  | EmptyString => false
  | String _ rest => contains needle rest
  end.

Definition LF : ascii := "010"%char.
Definition CR : ascii := "013"%char.

(** The line boundaries of [str.splitlines] among the code points below 256:
    \n, \r, \v, \f, \x1c, \x1d, \x1e and \x85 (and the pair \r\n, which
    counts once). *)
Definition is_linebreak (c : ascii) : bool :=
  match nat_of_ascii c with
  | 10%nat | 11%nat | 12%nat | 13%nat | 28%nat | 29%nat | 30%nat | 133%nat => true
  | _ => false
  end.

(** [cur] is the line being read; a final line without terminator is kept
    when it is not empty. *)
Fixpoint splitlines_from (cur s : string) : list string :=
  match s with
  | EmptyString =>
      match cur with
      | EmptyString => []
      | _ => [cur]
      end
  | String c rest =>
      if is_linebreak c then
        if Ascii.eqb c CR then
          match rest with
          | String c' rest' =>
              if Ascii.eqb c' LF then cur :: splitlines_from "" rest'
              else cur :: splitlines_from "" rest
          | EmptyString => cur :: splitlines_from "" rest
          end
        else cur :: splitlines_from "" rest
      else splitlines_from (cur ++ String c "") rest
  end.

(** [s.splitlines()] *)
Definition splitlines (s : string) : list string := splitlines_from "" s.

(** [l[i]] on a Python list: a negative index counts from the end. *)
Definition getitem {A : Type} (l : list A) (i : Z) : result A :=
  let n := Z.of_nat (length l) in
  let j := if i <? 0 then i + n else i in
  if (j <? 0) || (n <=? j) then Raise IndexError
  else match nth_error l (Z.to_nat j) with
       | Some a => Ok a
       | None => Raise IndexError
       end.

(** ** Arrays *)

Definition arr2 (A : Type) : Type := list (list A).
Definition arr3 (A : Type) : Type := list (list (list A)).

(** [a.shape] of an array given as nested lists; exact on a rectangular
    array whose outer axes are not empty. *)
Definition shape3 {A : Type} (a : arr3 A) : list nat :=
  [length a; length (hd [] a); length (hd [] (hd [] a))].

(** The array is rectangular with the given extents. *)
Definition has_shape2 {A : Type} (h w : nat) (a : arr2 A) : Prop :=
  length a = h /\ Forall (fun row => length row = w) a.

Definition has_shape3 {A : Type} (n h w : nat) (a : arr3 A) : Prop :=
  length a = n /\ Forall (has_shape2 h w) a.

(** ** The filesystem and PIL images *)

(** Band layout of a decoded image: [np.array(im)] is 2-D for a
    single-band image and 3-D (height, width, bands) otherwise. *)
Inductive mode : Type := L | LA | RGB | RGBA | CMYK.

Definition bands (m : mode) : nat :=
  match m with
  | L => 1
  | LA => 2
  | RGB => 3
  | RGBA => 4
  | CMYK => 4
  end.

(** Pixels are stored row by row, each pixel with its band values. *)
Record pil_image : Type := {
  im_mode : mode;
  im_px : arr3 Z
}.

(** A decoded image: [h] rows of [w] pixels, every pixel with one uint8
    value per band. *)
Definition wf_image (h w : nat) (im : pil_image) : Prop :=
  has_shape3 h w (bands (im_mode im)) (im_px im) /\
  Forall (Forall (Forall (fun v => 0 <= v < 256))) (im_px im).

(** What [open(path).read()] and [Image.open(path)] give; [None] is a
    missing or unreadable file. *)
Record filesystem : Type := {
  fs_text : string -> option string;
  fs_image : string -> option pil_image
}.

Definition read_text (fs : filesystem) (path : string) : result string :=
  match fs_text fs path with
  | Some s => Ok s
  | None => Raise (IOError path)
  end.

Definition Image_open (fs : filesystem) (path : string) : result pil_image :=
  match fs_image fs path with
  | Some im => Ok im
  | None => Raise (IOError path)
  end.

(** [np.array(im)]: rank 2 for a single-band image, rank 3 otherwise. *)
Inductive decoded : Type :=
| Gray (a : arr2 Z)
| Banded (a : arr3 Z).

Definition np_array (im : pil_image) : decoded :=
  match im_mode im with
  | L => Gray (map (map (fun px => hd 0 px)) (im_px im))
  | _ => Banded (im_px im)
  end.

(** ** Floating point *)

(** uint8 to float: exact. *)
Definition of_uint8 (v : Z) : float := of_uint63 (Uint63.of_Z v).

(** Rounding of a binary64 value to binary32 (24 bits of precision,
    exponents up to 128), to nearest even; the result is again held in a
    binary64. *)
Definition to_float32 (x : float) : float :=
  match Prim2SF x with
  | S754_finite s m e => SF2Prim (binary_round 24 128 s m e)
  | _ => x
  end.

(** [255.0*2/3], evaluated left to right. *)
Definition threshold : float := (255.0 * 2 / 3)%float.

(** ** Label arrays *)

(** A label array has rank 3 (from a single-band image) or rank 4 (from
    an image with several bands), and dtype bool or float64. *)
Inductive ndarray (A : Type) : Type :=
| Rank3 (a : arr3 A)
| Rank4 (a : list (arr3 A)).

Arguments Rank3 {A} a.
Arguments Rank4 {A} a.

Inductive label_array : Type :=
| BoolArray (a : ndarray bool)
| FloatArray (a : ndarray float).

Definition nd_shape {A : Type} (a : ndarray A) : list nat :=
  match a with
  | Rank3 a => shape3 a
  | Rank4 a => length a :: shape3 (hd [] a)
  end.

Definition label_shape (l : label_array) : list nat :=
  match l with
  | BoolArray a => nd_shape a
  | FloatArray a => nd_shape a
  end.

(** [f(label)[np.newaxis, ...]] for an elementwise [f] *)
Definition newaxis_map {A : Type} (f : Z -> A) (d : decoded) : ndarray A :=
  match d with
  | Gray a => Rank3 [map (map f) a]
  | Banded a => Rank4 [map (map (map f)) a]
  end.

(** ** The layer object *)

Inductive layer_class : Type := GDIDataLayerImp | GDIValDataLayer.

Definition dir_key (cls : layer_class) : string :=
  match cls with
  | GDIDataLayerImp => "train_dir"
  | GDIValDataLayer => "val_dir"
  end.

Definition image_dir (cls : layer_class) : string :=
  match cls with
  | GDIDataLayerImp => "gd_train"
  | GDIValDataLayer => "gd_val"
  end.

Definition label_dir (cls : layer_class) : string :=
  match cls with
  | GDIDataLayerImp => "gd_imp_train"
  | GDIValDataLayer => "gd_imp_val"
  end.

(** The dictionary that [eval(self.param_str)] yields; [None] is an absent
    key. [p_dir] is the entry under [dir_key]. For the seed an absent key
    and the value None come to the same, [params.get('seed', None)]. *)
Record params : Type := {
  p_dir : option string;
  p_split : option string;
  p_mean : option (list float);
  p_randomize : option bool;
  p_seed : option Z;
  p_binarize : option bool
}.

(** [params[key]] *)
Definition lookup {A : Type} (key : string) (o : option A) : result A :=
  match o with
  | Some v => Ok v
  | None => Raise (KeyError key)
  end.

(** [params.get(key, dflt)] *)
Definition get {A : Type} (o : option A) (dflt : A) : A :=
  match o with
  | Some v => v
  | None => dflt
  end.

(** The attributes of [self]; [data] and [label] exist once [reshape]
    has run. *)
Record layer : Type := {
  maindir : string;
  split : string;
  mean : list float;
  random : bool;
  seed : option Z;
  binarize : bool;
  indices : list string;
  idx : Z;
  data : option (arr3 float);
  label : option label_array
}.

Definition set_idx (st : layer) (i : Z) : layer :=
  {| maindir := maindir st; split := split st; mean := mean st;
     random := random st; seed := seed st; binarize := binarize st;
     indices := indices st; idx := i; data := data st; label := label st |}.

Definition set_data (st : layer) (d : arr3 float) : layer :=
  {| maindir := maindir st; split := split st; mean := mean st;
     random := random st; seed := seed st; binarize := binarize st;
     indices := indices st; idx := idx st; data := Some d; label := label st |}.

Definition set_label (st : layer) (l : label_array) : layer :=
  {| maindir := maindir st; split := split st; mean := mean st;
     random := random st; seed := seed st; binarize := binarize st;
     indices := indices st; idx := idx st; data := data st; label := Some l |}.

(** [self.attr] *)
Definition attr {A : Type} (name : string) (o : option A) : result A :=
  match o with
  | Some v => Ok v
  | None => Raise (AttributeError name)
  end.

(** ** Image and label preprocessing *)

(** [in_ -= mean] on an array of shape (h, w, c) with a 1-D [mean]: the
    shapes broadcast when [mean] has [c] entries or one entry. The
    difference is taken in binary64 and stored as float32. *)
Definition isub (in_ : arr3 float) (c : nat) (mean : list float)
  : result (arr3 float) :=
  let sub_px (m : list float) (px : list float) :=
    map (fun vm => to_float32 (fst vm - snd vm)%float) (combine px m) in
  if (length mean =? c)%nat then Ok (map (map (sub_px mean)) in_)
  else match mean with
       | [m] => Ok (map (map (sub_px (repeat m c))) in_)
       | _ => Raise ValueError
       end.

(** [in_.transpose((2,0,1))] of an array with [c] entries on its last axis *)
Definition transpose_201 (c : nat) (in_ : arr3 float) : arr3 float :=
  map (fun k => map (map (fun px => nth k px 0%float)) in_) (seq 0 c).

Definition load_image (cls : layer_class) (self : layer) (fs : filesystem)
  (name : string) : result (arr3 float) :=
  im <- Image_open fs
          (maindir self ++ "/GDI/" ++ image_dir cls ++ "/" ++ name ++ ".jpg");;
  match np_array im with
  | Gray _ => Raise IndexError
  | Banded a =>
      let in_ := map (map (map of_uint8)) a in
      let in_ := map (map (@rev float)) in_ in
      in_ <- isub in_ (bands (im_mode im)) (mean self);;
      Ok (transpose_201 (bands (im_mode im)) in_)
  end.

Definition load_label (cls : layer_class) (self : layer) (fs : filesystem)
  (name : string) : result label_array :=
  im <- Image_open fs
          (maindir self ++ "/GDI/" ++ label_dir cls ++ "/" ++ name ++ ".png");;
  let label := np_array im in
  if binarize self then
    Ok (BoolArray (newaxis_map (fun v => (threshold <? of_uint8 v)%float) label))
  else
    Ok (FloatArray (newaxis_map (fun v => (of_uint8 v / 255.0)%float) label)).

(** ** Blobs *)

(** What a top blob holds: its announced shape and the array last
    assigned to its buffer. *)
Inductive payload : Type :=
| ImageData (a : arr3 float)
| LabelData (a : label_array).

Record blob : Type := {
  blob_shape : list nat;
  blob_data : option payload
}.

(** [b.reshape] with the given extents *)
Definition blob_reshape (b : blob) (dims : list nat) : blob :=
  {| blob_shape := dims; blob_data := blob_data b |}.

(** Shapes are compared from the last axis; the source may have fewer
    axes, and an axis of extent 1 stretches. *)
Fixpoint broadcasts_rev (src dst : list nat) : bool :=
  match src, dst with
  | [], _ => true
  | s :: src', d :: dst' => ((s =? d)%nat || (s =? 1)%nat) && broadcasts_rev src' dst'
  | _ :: _, [] => forallb (fun s => (s =? 1)%nat) src
  end.

Definition broadcasts (src dst : list nat) : bool :=
  broadcasts_rev (rev src) (rev dst).

(** [b.data[...] = a] *)
Definition blob_assign (b : blob) (shape : list nat) (a : payload) : result blob :=
  if broadcasts shape (blob_shape b)
  then Ok {| blob_shape := blob_shape b; blob_data := Some a |}
  else Raise ValueError.

(** [l[i] = x] for an index in range *)
Fixpoint setitem {A : Type} (l : list A) (i : nat) (x : A) : list A :=
  match l, i with
  | [], _ => []
  | _ :: t, O => x :: t
  | h :: t, S j => h :: setitem t j x
  end.

(** ** The random module *)

(** The generator behind [random]: [seed_rng a] is the state after
    [random.seed(a)], [randbelow g n] draws from [0, n) for a positive [n]
    and gives the next state. *)
Class PyRandom : Type := {
  rng : Type;
  seed_rng : Z -> rng;
  randbelow : rng -> Z -> Z * rng;
  randbelow_range : forall g n, 0 < n -> 0 <= fst (randbelow g n) < n
}.

Section Layer.

Context {R : PyRandom}.

(** [random.randrange(start, stop)] *)
Definition randrange (g : rng) (start stop : Z) : result (Z * rng) :=
  let width := stop - start in
  if 0 <? width then
    let (r, g') := randbelow g width in Ok (start + r, g')
  else Raise ValueError.

(** [random.randint(a, b)] *)
Definition randint (g : rng) (a b : Z) : result (Z * rng) :=
  randrange g a (b + 1).

(** [random.seed(a)]: without a seed the state comes from [entropy], the
    value the operating system supplies. *)
Definition random_seed (a : option Z) (entropy : Z) : rng :=
  match a with
  | Some s => seed_rng s
  | None => seed_rng entropy
  end.

Definition setup (cls : layer_class) (prm : params) (fs : filesystem)
  (entropy : Z) (g : rng) (bottom top : list blob) : result (layer * rng) :=
  maindir_ <- lookup (dir_key cls) (p_dir prm);;
  split_ <- lookup "split" (p_split prm);;
  mean_ <- lookup "mean" (p_mean prm);;
  let random_ := get (p_randomize prm) true in
  let seed_ := p_seed prm in
  binarize_ <- lookup "binarize" (p_binarize prm);;
  if negb (length top =? 2)%nat then
    Raise (Exception "Need to define two tops: data and label.")
  else if negb (length bottom =? 0)%nat then
    Raise (Exception "Do not define a bottom.")
  else
    let split_f := maindir_ ++ "/GDI/" ++ split_ ++ ".txt" in
    content <- read_text fs split_f;;
    let indices_ := splitlines content in
    let random_ := if negb (contains "train" split_) then false else random_ in
    let self :=
      {| maindir := maindir_; split := split_; mean := mean_;
         random := random_; seed := seed_; binarize := binarize_;
         indices := indices_; idx := 0; data := None; label := None |} in
    if random self then
      let g := random_seed (seed self) entropy in
      '(i, g') <- randint g 0 (Z.of_nat (length (indices self)) - 1);;
      Ok (set_idx self i, g')
    else Ok (self, g).

Definition reshape (cls : layer_class) (self : layer) (fs : filesystem)
  (bottom top : list blob) : result (layer * list blob) :=
  name <- getitem (indices self) (idx self);;
  d <- load_image cls self fs name;;
  let self := set_data self d in
  name <- getitem (indices self) (idx self);;
  l <- load_label cls self fs name;;
  let self := set_label self l in
  t0 <- getitem top 0;;
  let top := setitem top 0 (blob_reshape t0 (1%nat :: shape3 d)) in
  t1 <- getitem top 1;;
  let top := setitem top 1 (blob_reshape t1 (1%nat :: label_shape l)) in
  Ok (self, top).

Definition forward (self : layer) (g : rng) (bottom top : list blob)
  : result (layer * rng * list blob) :=
  d <- attr "data" (data self);;
  t0 <- getitem top 0;;
  t0 <- blob_assign t0 (shape3 d) (ImageData d);;
  let top := setitem top 0 t0 in
  l <- attr "label" (label self);;
  t1 <- getitem top 1;;
  t1 <- blob_assign t1 (label_shape l) (LabelData l);;
  let top := setitem top 1 t1 in
  if random self then
    '(i, g') <- randint g 0 (Z.of_nat (length (indices self)) - 1);;
    Ok (set_idx self i, g', top)
  else
    let i := idx self + 1 in
    let i := if i =? Z.of_nat (length (indices self)) then 0 else i in
    Ok (set_idx self i, g, top).

Definition backward (self : layer) : layer := self.

(** One sample, as the net requests it: [reshape], then [forward]. *)
Definition step (cls : layer_class) (fs : filesystem) (self : layer) (g : rng)
  (top : list blob) : result (layer * rng * list blob) :=
  '(self, top) <- reshape cls self fs [] top;;
  forward self g [] top.

(** [n] samples in a row; the result lists the cursor before each step
    and ends with the state reached. *)
Fixpoint steps (cls : layer_class) (fs : filesystem) (n : nat) (self : layer)
  (g : rng) (top : list blob) : result (list Z * (layer * rng * list blob)) :=
  match n with
  | O => Ok ([], (self, g, top))
  | S n' =>
      '(self', g', top') <- step cls fs self g top;;
      '(visited, final) <- steps cls fs n' self' g' top';;
      Ok (idx self :: visited, final)
  end.

(** A whole run: [setup], then [n] samples. *)
Definition run (cls : layer_class) (prm : params) (fs : filesystem)
  (entropy : Z) (g : rng) (bottom top : list blob) (n : nat)
  : result (list Z * (layer * rng * list blob)) :=
  '(self, g') <- setup cls prm fs entropy g bottom top;;
  steps cls fs n self g' top.

End Layer.

(** [n] calls of [reshape] in a row, no [forward] in between. *)
Fixpoint reshapes (cls : layer_class) (fs : filesystem) (n : nat) (self : layer)
  (bottom top : list blob) : result (layer * list blob) :=
  match n with
  | O => Ok (self, top)
  | S n' =>
      '(self', top') <- reshape cls self fs bottom top;;
      reshapes cls fs n' self' bottom top'
  end.

(** * Notions of the statements *)

(** Every entry of the index list has a loadable image and label. *)
Definition loadable (cls : layer_class) (fs : filesystem) (self : layer) : Prop :=
  forall name, In name (indices self) ->
    is_ok (load_image cls self fs name) = true /\
    is_ok (load_label cls self fs name) = true.

(** The cursor that sequential mode moves to. *)
Definition next_sequential (self : layer) : Z :=
  if idx self + 1 =? Z.of_nat (length (indices self)) then 0 else idx self + 1.

(** No character of [s] is a line boundary. *)
Fixpoint plain (s : string) : bool :=
  match s with
  | EmptyString => true
  | String c rest => negb (is_linebreak c) && plain rest
  end.

(** The text whose lines are [ls], each ended by a line feed. *)
Fixpoint unlines (ls : list string) : string :=
  match ls with
  | [] => ""
  | l :: rest => l ++ String LF (unlines rest)
  end.

(** The index list as the specification words it: the non-empty lines of
    the manifest, in file order. *)
Definition nonempty_lines (content : string) : list string :=
  filter (fun l => negb (String.eqb l "")) (splitlines content).

(** The exceptions that the specification files under ConfigurationError:
    the [Exception] of the slot check and the [KeyError] of a missing key. *)
Definition is_configuration_error (e : exn) : bool :=
  match e with
  | Exception _ | KeyError _ => true
  | _ => false
  end.

(** The uint8 array that [np.array] makes of a single-band image. *)
Definition gray_values (im : pil_image) : arr2 Z :=
  map (map (fun px => hd 0 px)) (im_px im).

(** [value > 255*2/3] over the integers. *)
Definition above_two_thirds (v : Z) : bool := 255 * 2 <? 3 * v.

(** A finite float as an exact fraction, numerator and denominator. *)
Definition as_fraction (x : float) : option (Z * Z) :=
  match Prim2SF x with
  | S754_zero _ => Some (0, 1)
  | S754_finite s m e =>
      let n := if s then Z.neg m else Z.pos m in
      if 0 <=? e then Some (n * 2 ^ e, 1) else Some (n, 2 ^ (- e))
  | _ => None
  end.

(** [x] is within 2^-54 of the rational v/255: for a quotient in [0, 1]
    this is at most half a unit in the last place of binary64. *)
Definition nearest_quotient (v : Z) (x : float) : bool :=
  match as_fraction x with
  | Some (n, d) => Z.abs (255 * n - v * d) * 2 ^ 54 <=? 255 * d
  | None => false
  end.

(** [x], rounded to three decimals, is [t]/1000. *)
Definition rounds_to_thousandths (x : float) (t : Z) : bool :=
  match as_fraction x with
  | Some (n, d) => 2 * Z.abs (1000 * n - t * d) <? d
  | None => false
  end.

(** The reference computation of the specification: channel-first, plane
    [c] holding the source band [2 - c] (blue, green, red for an RGB
    source) as float, minus entry [c] of the mean. *)
Definition reference_bgr (px : arr3 Z) (mean : list float) : arr3 float :=
  map (fun c =>
         map (map (fun p =>
                     to_float32
                       (PrimFloat.sub (of_uint8 (nth (2 - c)%nat p 0))
                                      (nth c mean 0%float))))
             px)
      [0; 1; 2]%nat.

(** A label array of rank 3 with the given extents. *)
Definition label_has_shape (n h w : nat) (l : label_array) : Prop :=
  match l with
  | BoolArray (Rank3 a) => has_shape3 n h w a
  | FloatArray (Rank3 a) => has_shape3 n h w a
  | _ => False
  end.

(** * Sample data

    A generator, files and layers on which the statements are tried. *)

(** A linear congruential generator as an instance of the interface. *)
Definition lcg_next (g : Z) : Z := (g * 1103515245 + 12345) mod 2147483648.

Definition lcg_randbelow (g n : Z) : Z * Z :=
  ((lcg_next g / 65536) mod n, lcg_next g).

#[local] Instance lcg_random : PyRandom := {
  rng := Z;
  seed_rng := fun a => a mod 2147483648;
  randbelow := lcg_randbelow;
  randbelow_range := fun g n Hn => Z.mod_pos_bound (lcg_next g / 65536) n Hn
}.

(** Two samples "a" and "b" with 2x2 images, listed by [train.txt] and
    [valid.txt] under the root [/data]. *)
Module Demo.

Definition manifest : string := "a" ++ String LF ("b" ++ String LF "").

Definition image_a : pil_image :=
  {| im_mode := RGB;
     im_px := [[[255; 0; 0]; [0; 255; 0]]; [[0; 0; 255]; [10; 20; 30]]] |}.

Definition image_b : pil_image :=
  {| im_mode := RGB;
     im_px := [[[1; 2; 3]; [4; 5; 6]]; [[7; 8; 9]; [10; 11; 12]]] |}.

Definition label_a : pil_image :=
  {| im_mode := L; im_px := [[[0]; [170]]; [[200]; [255]]] |}.

Definition label_b : pil_image :=
  {| im_mode := L; im_px := [[[171]; [169]]; [[1]; [254]]] |}.

Definition fs : filesystem :=
  {| fs_text := fun path =>
       if String.eqb path "/data/GDI/train.txt" then Some manifest
       else if String.eqb path "/data/GDI/valid.txt" then Some manifest
       else None;
     fs_image := fun path =>
       if String.eqb path "/data/GDI/gd_train/a.jpg" then Some image_a
       else if String.eqb path "/data/GDI/gd_train/b.jpg" then Some image_b
       else if String.eqb path "/data/GDI/gd_imp_train/a.png" then Some label_a
       else if String.eqb path "/data/GDI/gd_imp_train/b.png" then Some label_b
       else None |}.

(** The mean of the docstring, (104.00698793, 116.66876762, 122.67891434),
    as the binary64 values these decimals denote. *)
Definition mean_bgr : list float :=
  [0x1.a00727d80b445p+6; 0x1.d2acd16b42185p+6; 0x1.eab735521c578p+6]%float.

Definition prm (split : string) (randomize : option bool) (seed : option Z)
  (binarize : bool) : params :=
  {| p_dir := Some "/data"; p_split := Some split; p_mean := Some mean_bgr;
     p_randomize := randomize; p_seed := seed; p_binarize := Some binarize |}.

Definition blank : blob := {| blob_shape := []; blob_data := None |}.

(** The layer after [setup] on this data set, up to the cursor. *)
Definition layer0 (split : string) (random : bool) (seed : option Z)
  (binarize : bool) (i : Z) : layer :=
  {| maindir := "/data"; split := split; mean := mean_bgr;
     random := random; seed := seed; binarize := binarize;
     indices := ["a"; "b"]; idx := i; data := None; label := None |}.

Definition tops : list blob := [blank; blank].

End Demo.

Definition valid_layer : layer := Demo.layer0 "valid" false None true 0.

Definition valid_layer_seeded : layer :=
  Demo.layer0 "valid" false (Some 42) true 0.

(** A manifest with an empty line between its two entries. *)
Definition manifest_gap : string := unlines ["a"; ""; "b"].

Definition fs_gap : filesystem :=
  {| fs_text := fun path =>
       if String.eqb path "/data/GDI/valid.txt" then Some manifest_gap else None;
     fs_image := fun _ => None |}.

Definition gap_layer : layer :=
  {| maindir := "/data"; split := "valid"; mean := Demo.mean_bgr;
     random := false; seed := None; binarize := true;
     indices := ["a"; ""; "b"]; idx := 0; data := None; label := None |}.

(** A 4x4 RGB image with red 10i, green 100+i and blue 255-i at the i-th
    pixel in row-major order, and an integer mean. *)
Module Grid.

Definition image : pil_image :=
  {| im_mode := RGB;
     im_px :=
       [[[0; 100; 255]; [10; 101; 254]; [20; 102; 253]; [30; 103; 252]];
        [[40; 104; 251]; [50; 105; 250]; [60; 106; 249]; [70; 107; 248]];
        [[80; 108; 247]; [90; 109; 246]; [100; 110; 245]; [110; 111; 244]];
        [[120; 112; 243]; [130; 113; 242]; [140; 114; 241]; [150; 115; 240]]] |}.

Definition fs : filesystem :=
  {| fs_text := fun _ => None;
     fs_image := fun path =>
       if String.eqb path "/data/GDI/gd_train/grid.jpg" then Some image else None |}.

Definition self : layer :=
  {| maindir := "/data"; split := "train"; mean := [104; 117; 123]%float;
     random := true; seed := None; binarize := true;
     indices := ["grid"]; idx := 0; data := None; label := None |}.

Definition expected : arr3 float :=
  [[[151; 150; 149; 148];
    [147; 146; 145; 144];
    [143; 142; 141; 140];
    [139; 138; 137; 136]];
   [[(-17); (-16); (-15); (-14)];
    [(-13); (-12); (-11); (-10)];
    [(-9); (-8); (-7); (-6)];
    [(-5); (-4); (-3); (-2)]];
   [[(-123); (-113); (-103); (-93)];
    [(-83); (-73); (-63); (-53)];
    [(-43); (-33); (-23); (-13)];
    [(-3); 7; 17; 27]]]%float.

End Grid.

(** A single-band and a four-band image where an RGB one is expected. *)
Module Odd.

Definition gray : pil_image :=
  {| im_mode := L; im_px := [[[0]; [170]]; [[200]; [255]]] |}.

Definition cmyk : pil_image :=
  {| im_mode := CMYK;
     im_px := [[[1; 2; 3; 4]; [5; 6; 7; 8]]; [[9; 10; 11; 12]; [13; 14; 15; 16]]] |}.

Definition fs : filesystem :=
  {| fs_text := fun _ => None;
     fs_image := fun path =>
       if String.eqb path "/data/GDI/gd_train/gray.jpg" then Some gray
       else if String.eqb path "/data/GDI/gd_train/cmyk.jpg" then Some cmyk
       else None |}.

End Odd.

(** * Notions of the further statements *)

(** The required key that [setup] misses first, in the order it reads
    them. *)
Definition first_missing (cls : layer_class) (prm : params) : option string :=
  match p_dir prm, p_split prm, p_mean prm, p_binarize prm with
  | None, _, _, _ => Some (dir_key cls)
  | Some _, None, _, _ => Some "split"
  | Some _, Some _, None, _ => Some "mean"
  | Some _, Some _, Some _, None => Some "binarize"
  | Some _, Some _, Some _, Some _ => None
  end.

(** A data root whose [train.txt] and [valid.txt] are empty files. *)
Definition fs_empty : filesystem :=
  {| fs_text := fun path =>
       if String.eqb path "/data/GDI/train.txt" then Some ""
       else if String.eqb path "/data/GDI/valid.txt" then Some ""
       else None;
     fs_image := fun _ => None |}.

(** The attributes that [setup] fixes agree on two layers. *)
Definition same_config (a b : layer) : Prop :=
  maindir a = maindir b /\ split a = split b /\ mean a = mean b /\
  random a = random b /\ seed a = seed b /\ binarize a = binarize b /\
  indices a = indices b.

Section Draws.

Context {R : PyRandom}.

(** The first [k] results of [random.randint(0, n-1)] from the state [g],
    and the state after them. *)
Fixpoint draws (g : rng) (n : Z) (k : nat) : list Z :=
  match k with
  | O => []
  | S k' =>
      match randint g 0 (n - 1) with
      | Ok (i, g') => i :: draws g' n k'
      | Raise _ => []
      end
  end.

Fixpoint after_draws (g : rng) (n : Z) (k : nat) : rng :=
  match k with
  | O => g
  | S k' =>
      match randint g 0 (n - 1) with
      | Ok (_, g') => after_draws g' n k'
      | Raise _ => g
      end
  end.

End Draws.

(** The integer nearest to 255 [x], for a finite [x]. *)
Definition unscale (x : float) : option Z :=
  match as_fraction x with
  | Some (n, d) => Some ((2 * 255 * n + d) / (2 * d))
  | None => None
  end.

(** [2/3 < x] over the rationals. *)
Definition exceeds_two_thirds (x : float) : bool :=
  match as_fraction x with
  | Some (n, d) => 2 * d <? 3 * n
  | None => false
  end.

(** [0 <= x <= 1] over the rationals. *)
Definition in_unit_interval (x : float) : bool :=
  match as_fraction x with
  | Some (n, d) => (0 <=? n) && (n <=? d)
  | None => false
  end.

(** The text whose lines are [ls], each ended by carriage return and line
    feed. *)
Fixpoint unlines_crlf (ls : list string) : string :=
  match ls with
  | [] => ""
  | l :: rest => l ++ String CR (String LF (unlines_crlf rest))
  end.

Definition fs_crlf : filesystem :=
  {| fs_text := fun path =>
       if String.eqb path "/data/GDI/valid.txt"
       then Some (unlines_crlf ["a"; ""; "b"]) else None;
     fs_image := fun _ => None |}.

(** The mean as [in_ -= mean] applies it to a pixel of [c] bands: itself
    when it has [c] entries, its single entry for every band otherwise. *)
Definition broadcast_mean (mean : list float) (c : nat) : list float :=
  if (length mean =? c)%nat then mean else repeat (hd 0%float mean) c.

(** A layer whose mean has a single entry. *)
Definition scalar_mean_layer : layer :=
  {| maindir := "/data"; split := "train"; mean := [104%float];
     random := true; seed := None; binarize := true;
     indices := ["cmyk"]; idx := 0; data := None; label := None |}.

(** * Facts *)

(** ** Basic facts *)

Lemma prefix_spec (n h : string) :
  String.prefix n h = true <-> exists b, h = n ++ b.
Proof.
  revert h. induction n as [|c n IH]; intros h.
  - split; [intros _; exists h; reflexivity | intros _; destruct h; reflexivity].
  - destruct h as [|c' h]; cbn.
    + split; [discriminate | intros [b Hb]; discriminate Hb].
    + destruct (ascii_dec c c') as [<-|Hne].
      * rewrite IH. split; intros [b Hb]; exists b; congruence.
      * split; [discriminate | intros [b Hb]; congruence].
Qed.

(** [contains] decides the substring relation of [in]. *)
Lemma contains_spec (n h : string) :
  contains n h = true <-> exists a b, h = a ++ n ++ b.
Proof.
  induction h as [|c h IH]; cbn [contains].
  - rewrite orb_false_r, prefix_spec. split.
    + intros [b Hb]. exists "", b. exact Hb.
    + intros (a & b & Hab). destruct a; [|discriminate Hab].
      exists b. exact Hab.
  - rewrite orb_true_iff, prefix_spec, IH. split.
    + intros [[b Hb]|(a & b & Hab)].
      * exists "", b. exact Hb.
      * exists (String c a), b. cbn. rewrite Hab. reflexivity.
    + intros (a & b & Hab). destruct a as [|c' a].
      * left. exists b. exact Hab.
      * right. exists a, b. cbn in Hab. congruence.
Qed.

Lemma bind_ok {A B : Type} (r : result A) (k : A -> result B) (b : B) :
  bind r k = Ok b -> exists a, r = Ok a /\ k a = Ok b.
Proof.
  destruct r as [a|e]; cbn; intros H; [exists a; split; [reflexivity|exact H] | discriminate].
Qed.

Lemma is_ok_true {A : Type} (r : result A) :
  is_ok r = true -> exists a, r = Ok a.
Proof.
  destruct r as [a|e]; cbn; intros H; [exists a; reflexivity | discriminate].
Qed.

Lemma getitem_in_range {A : Type} (l : list A) (i : Z) :
  0 <= i < Z.of_nat (length l) ->
  exists a, getitem l i = Ok a /\ nth_error l (Z.to_nat i) = Some a.
Proof.
  intros Hi. unfold getitem.
  destruct (Z.ltb_spec i 0) as [Hneg|_]; [lia|].
  destruct (Z.ltb_spec i 0) as [Hneg|_]; [lia|].
  destruct (Z.leb_spec (Z.of_nat (length l)) i) as [Hge|_]; [lia|].
  cbn [orb].
  destruct (nth_error l (Z.to_nat i)) as [a|] eqn:E.
  - exists a. split; reflexivity.
  - apply nth_error_None in E. lia.
Qed.

Lemma getitem_out_of_range {A : Type} (l : list A) (i : Z) :
  Z.of_nat (length l) <= i -> getitem l i = Raise IndexError.
Proof.
  intros Hi. unfold getitem.
  destruct (Z.ltb_spec i 0) as [Hneg|_]; [lia|].
  destruct (Z.ltb_spec i 0) as [Hneg|_]; [lia|].
  destruct (Z.leb_spec (Z.of_nat (length l)) i) as [_|Hlt]; [|lia].
  reflexivity.
Qed.

Lemma broadcasts_rev_prefix (s r : list nat) :
  broadcasts_rev s (s ++ r)%list = true.
Proof.
  induction s as [|x s IH]; cbn.
  - destruct r; reflexivity.
  - rewrite Nat.eqb_refl. cbn. exact IH.
Qed.

(** An array fits the buffer that [reshape] announced for it. *)
Lemma broadcasts_batch (s : list nat) : broadcasts s (1%nat :: s) = true.
Proof.
  unfold broadcasts. cbn [rev]. apply broadcasts_rev_prefix.
Qed.

(** ** One sample *)

Section LayerFacts.

Context {R : PyRandom}.

Lemma reshape_loads (cls : layer_class) (fs : filesystem) (self : layer)
  (bottom : list blob) (t0 t1 : blob) :
  0 <= idx self < Z.of_nat (length (indices self)) ->
  loadable cls fs self ->
  exists name d l,
    getitem (indices self) (idx self) = Ok name /\
    load_image cls self fs name = Ok d /\
    load_label cls self fs name = Ok l /\
    reshape cls self fs bottom [t0; t1] =
      Ok (set_label (set_data self d) l,
          [blob_reshape t0 (1%nat :: shape3 d);
           blob_reshape t1 (1%nat :: label_shape l)]).
Proof.
  intros Hidx Hload.
  destruct (getitem_in_range (indices self) (idx self) Hidx) as (name & Hget & Hnth).
  destruct (Hload name (nth_error_In _ _ Hnth)) as [Hi Hl].
  apply is_ok_true in Hi. destruct Hi as [d Hd].
  apply is_ok_true in Hl. destruct Hl as [l Hl].
  exists name, d, l. repeat split; try assumption.
  unfold reshape. rewrite Hget. cbn [bind]. rewrite Hd. cbn [bind].
  change (indices (set_data self d)) with (indices self).
  change (idx (set_data self d)) with (idx self).
  rewrite Hget. cbn [bind].
  change (load_label cls (set_data self d) fs name) with (load_label cls self fs name).
  rewrite Hl. reflexivity.
Qed.

Lemma forward_writes (self : layer) (g : rng) (bottom : list blob) (t0 t1 : blob)
  (d : arr3 float) (l : label_array) :
  data self = Some d ->
  label self = Some l ->
  blob_shape t0 = (1%nat :: shape3 d) ->
  blob_shape t1 = (1%nat :: label_shape l) ->
  exists top',
    top' = [ {| blob_shape := blob_shape t0; blob_data := Some (ImageData d) |};
             {| blob_shape := blob_shape t1; blob_data := Some (LabelData l) |} ] /\
    length top' = 2%nat /\
    forward self g bottom [t0; t1] =
      if random self then
        '(i, g') <- randint g 0 (Z.of_nat (length (indices self)) - 1);;
        Ok (set_idx self i, g', top')
      else Ok (set_idx self (next_sequential self), g, top').
Proof.
  intros Hd Hl H0 H1.
  exists [ {| blob_shape := blob_shape t0; blob_data := Some (ImageData d) |};
           {| blob_shape := blob_shape t1; blob_data := Some (LabelData l) |} ].
  split; [reflexivity|]. split; [reflexivity|].
  unfold forward. rewrite Hd, Hl. cbn [attr bind getitem].
  cbn -[broadcasts randint].
  unfold blob_assign. rewrite H0, broadcasts_batch.
  change (Pos.to_nat 1) with 1%nat. cbn -[broadcasts randint].
  rewrite H1, broadcasts_batch. cbn -[broadcasts randint].
  reflexivity.
Qed.

(** One sample in sequential mode: the step succeeds, the cursor moves to
    the next position, and nothing else that the next step reads changes. *)
Lemma step_sequential (cls : layer_class) (fs : filesystem) (self : layer)
  (g : rng) (top : list blob) :
  random self = false ->
  0 <= idx self < Z.of_nat (length (indices self)) ->
  loadable cls fs self ->
  length top = 2%nat ->
  exists self' top',
    step cls fs self g top = Ok (self', g, top') /\
    idx self' = next_sequential self /\
    random self' = false /\
    indices self' = indices self /\
    loadable cls fs self' /\
    length top' = 2%nat.
Proof.
  intros Hr Hidx Hload Htop.
  destruct top as [|t0 [|t1 [|? ?]]]; try discriminate.
  destruct (reshape_loads cls fs self [] t0 t1 Hidx Hload)
    as (name & d & l & _ & _ & _ & Hre).
  destruct (forward_writes (set_label (set_data self d) l) g []
              (blob_reshape t0 (1%nat :: shape3 d))
              (blob_reshape t1 (1%nat :: label_shape l)) d l
              eq_refl eq_refl eq_refl eq_refl) as (top' & _ & Hlen & Hfw).
  change (random (set_label (set_data self d) l)) with (random self) in Hfw.
  rewrite Hr in Hfw.
  exists (set_idx (set_label (set_data self d) l)
            (next_sequential (set_label (set_data self d) l))), top'.
  split.
  { unfold step. rewrite Hre. cbn [bind]. exact Hfw. }
  split; [reflexivity|].
  split; [exact Hr|].
  split; [reflexivity|].
  split; [|exact Hlen].
  intros name' Hin. exact (Hload name' Hin).
Qed.

End LayerFacts.

(** ** Setup and sequential mode *)

Section SetupFacts.

Context {R : PyRandom}.

(** What a successful [setup] has read and stored. *)
Lemma setup_inv (cls : layer_class) (prm : params) (fs : filesystem)
  (entropy : Z) (g : rng) (bottom top : list blob) (st : layer) (g' : rng) :
  setup cls prm fs entropy g bottom top = Ok (st, g') ->
  exists dir sp m b content,
    p_dir prm = Some dir /\ p_split prm = Some sp /\ p_mean prm = Some m /\
    p_binarize prm = Some b /\
    length top = 2%nat /\ length bottom = 0%nat /\
    fs_text fs (dir ++ "/GDI/" ++ sp ++ ".txt") = Some content /\
    maindir st = dir /\ split st = sp /\ mean st = m /\ binarize st = b /\
    seed st = p_seed prm /\
    indices st = splitlines content /\
    random st = contains "train" sp && get (p_randomize prm) true /\
    data st = None /\ label st = None /\
    if random st then
      randint (random_seed (p_seed prm) entropy) 0
        (Z.of_nat (length (splitlines content)) - 1) = Ok (idx st, g')
    else idx st = 0 /\ g' = g.
Proof.
  unfold setup. intros H.
  destruct (p_dir prm) as [dir|]; [|discriminate].
  destruct (p_split prm) as [sp|]; [|discriminate].
  destruct (p_mean prm) as [m|]; [|discriminate].
  destruct (p_binarize prm) as [b|]; [|discriminate].
  cbn [lookup bind] in H.
  destruct (length top =? 2)%nat eqn:Et; [|discriminate].
  destruct (length bottom =? 0)%nat eqn:Eb; [|discriminate].
  cbn [negb] in H. unfold read_text in H.
  destruct (fs_text fs (dir ++ "/GDI/" ++ sp ++ ".txt")) as [content|] eqn:Ef;
    [|discriminate].
  cbn [bind] in H.
  apply Nat.eqb_eq in Et. apply Nat.eqb_eq in Eb.
  exists dir, sp, m, b, content.
  cbn [random seed indices] in H.
  destruct (contains "train" sp); cbn [negb] in H.
  - destruct (get (p_randomize prm) true).
    + destruct (randint _ _ _) as [[i g2]|e] eqn:Er; [|discriminate].
      cbn [bind] in H. injection H as <- <-.
      cbn [set_idx maindir split mean random seed binarize indices idx data label andb]. repeat split; first [assumption | reflexivity].
    + injection H as <- <-. cbn [set_idx maindir split mean random seed binarize indices idx data label andb]. repeat split; first [assumption | reflexivity].
  - injection H as <- <-. cbn [set_idx maindir split mean random seed binarize indices idx data label andb]. repeat split; first [assumption | reflexivity].
Qed.

(** The slot check of [setup] is the only source of an [Exception]. *)
Lemma setup_slots (cls : layer_class) (prm : params) (fs : filesystem)
  (entropy : Z) (g : rng) (bottom top : list blob) (msg : string) :
  setup cls prm fs entropy g bottom top = Raise (Exception msg) ->
  length top <> 2%nat \/ length bottom <> 0%nat.
Proof.
  unfold setup. intros H.
  destruct (p_dir prm) as [dir|]; [|discriminate].
  destruct (p_split prm) as [sp|]; [|discriminate].
  destruct (p_mean prm) as [m|]; [|discriminate].
  destruct (p_binarize prm) as [b|]; [|discriminate].
  cbn [lookup bind] in H.
  destruct (length top =? 2)%nat eqn:Et;
    [|left; apply Nat.eqb_neq; exact Et].
  destruct (length bottom =? 0)%nat eqn:Eb;
    [|right; apply Nat.eqb_neq; exact Eb].
  exfalso. cbn [negb] in H. unfold read_text in H.
  destruct (fs_text fs _); [|discriminate].
  cbn [bind random] in H.
  destruct (if negb (contains "train" sp) then false else get (p_randomize prm) true);
    [|discriminate].
  unfold randint, randrange in H.
  destruct (0 <? _); [|discriminate].
  destruct (randbelow _ _). discriminate.
Qed.

Lemma next_sequential_mod (self : layer) :
  0 <= idx self < Z.of_nat (length (indices self)) ->
  next_sequential self = (idx self + 1) mod Z.of_nat (length (indices self)).
Proof.
  intros H. unfold next_sequential.
  destruct (Z.eqb_spec (idx self + 1) (Z.of_nat (length (indices self)))) as [E|E].
  - rewrite E. symmetry. apply Z.mod_same. lia.
  - symmetry. apply Z.mod_small. lia.
Qed.

(** Sequential mode from any cursor [i]: [k] samples succeed and visit
    [i], [i+1], ... modulo the length of the index list. *)
Lemma steps_sequential (cls : layer_class) (fs : filesystem) (k : nat) :
  forall (self : layer) (g : rng) (top : list blob),
    random self = false ->
    0 <= idx self < Z.of_nat (length (indices self)) ->
    loadable cls fs self ->
    length top = 2%nat ->
    exists final,
      steps cls fs k self g top =
        Ok (map (fun j => (idx self + Z.of_nat j) mod Z.of_nat (length (indices self)))
              (seq 0 k), final) /\
      idx (fst (fst final)) =
        (idx self + Z.of_nat k) mod Z.of_nat (length (indices self)) /\
      snd (fst final) = g.
Proof.
  induction k as [|k IH]; intros self g top Hr Hidx Hload Htop.
  - exists (self, g, top). cbn. repeat split.
    rewrite Z.add_0_r. symmetry. apply Z.mod_small. exact Hidx.
  - destruct (step_sequential cls fs self g top Hr Hidx Hload Htop)
      as (self' & top' & Hstep & Hidx' & Hr' & Hind & Hload' & Htop').
    rewrite next_sequential_mod in Hidx' by exact Hidx.
    assert (Hrange : 0 <= idx self' < Z.of_nat (length (indices self'))).
    { rewrite Hidx', Hind. apply Z.mod_pos_bound. lia. }
    destruct (IH self' g top' Hr' Hrange Hload' Htop') as (final & Hsteps & Hfin & Hg).
    exists final. cbn [steps]. rewrite Hstep. cbn [bind]. rewrite Hsteps. cbn [bind].
    rewrite Hind, Hidx' in *.
    split; [|split; [|exact Hg]].
    + do 2 f_equal. cbn [seq map]. rewrite <- seq_shift, map_map. f_equal.
      * cbn [Z.of_nat]. rewrite Z.add_0_r. symmetry. apply Z.mod_small. exact Hidx.
      * apply map_ext. intros j.
        rewrite Zplus_mod_idemp_l. f_equal. lia.
    + rewrite Hfin. rewrite Zplus_mod_idemp_l. f_equal. lia.
Qed.

End SetupFacts.

(** ** The sequential cycle (C1) *)

Section Sequential.

Context {R : PyRandom}.

(** C1. For a manifest with N >= 1 entries and randomization inactive:
    after [setup] the cursor is 0; every [forward] moves the cursor to the
    next position, and to 0 exactly when that position is N; and any number
    k of samples in a row succeed and visit 0, 1, ..., N-1, 0, 1, ... in
    this order, leaving the cursor at k mod N; in particular the first N
    samples visit each of 0, ..., N-1 once and leave the cursor at 0. *)
Theorem sequential_visits_in_order (cls : layer_class) (prm : params)
  (fs : filesystem) (entropy : Z) (g : rng) (bottom top : list blob)
  (st : layer) (g' : rng) :
  setup cls prm fs entropy g bottom top = Ok (st, g') ->
  random st = false ->
  (1 <= length (indices st))%nat ->
  loadable cls fs st ->
  let N := Z.of_nat (length (indices st)) in
  idx st = 0 /\
  (forall self g0 bottom0 top0 self' g1 top1,
     random self = false ->
     forward self g0 bottom0 top0 = Ok (self', g1, top1) ->
     idx self' =
       if idx self + 1 =? Z.of_nat (length (indices self)) then 0
       else idx self + 1) /\
  (forall k, exists final,
     steps cls fs k st g' top =
       Ok (map (fun j => Z.of_nat j mod N) (seq 0 k), final) /\
     idx (fst (fst final)) = Z.of_nat k mod N) /\
  (exists final,
     steps cls fs (length (indices st)) st g' top =
       Ok (map Z.of_nat (seq 0 (length (indices st))), final) /\
     idx (fst (fst final)) = 0).
Proof.
  intros Hsetup Hr HN Hload N.
  destruct (setup_inv _ _ _ _ _ _ _ _ _ Hsetup)
    as (dir & sp & m & b & content & _ & _ & _ & _ & Htop & _ & _ & _ & _ & _ & _
        & _ & _ & _ & _ & _ & Hcur).
  rewrite Hr in Hcur. destruct Hcur as [Hidx _].
  assert (Hk : forall k, exists final,
             steps cls fs k st g' top =
               Ok (map (fun j => Z.of_nat j mod N) (seq 0 k), final) /\
             idx (fst (fst final)) = Z.of_nat k mod N).
  { intros k.
    assert (Hrange : 0 <= idx st < Z.of_nat (length (indices st))) by lia.
    destruct (steps_sequential cls fs k st g' top Hr Hrange Hload Htop)
      as (final & Hsteps & Hfin & _).
    exists final. rewrite Hidx in Hsteps, Hfin. split.
    - rewrite Hsteps. reflexivity.
    - rewrite Hfin. reflexivity. }
  split; [exact Hidx|]. split; [|split; [exact Hk|]].
  - intros self g0 bottom0 top0 self' g1 top1 Hrs Hfw.
    unfold forward in Hfw.
    repeat (apply bind_ok in Hfw; destruct Hfw as (? & _ & Hfw)).
    rewrite Hrs in Hfw. injection Hfw as <- _ _. reflexivity.
  - destruct (Hk (length (indices st))) as (final & Hsteps & Hfin).
    exists final. split.
    + rewrite Hsteps. do 2 f_equal. apply map_ext_in.
      intros j Hj. apply in_seq in Hj. apply Z.mod_small. subst N. lia.
    + rewrite Hfin. apply Z.mod_same. subst N. lia.
Qed.

End Sequential.

Lemma layer0_loadable (split : string) (random : bool) (seed : option Z)
  (binarize : bool) (i : Z) :
  loadable GDIDataLayerImp Demo.fs (Demo.layer0 split random seed binarize i).
Proof.
  intros name [<-|[<-|[]]]; split; destruct binarize; vm_compute; reflexivity.
Qed.

Lemma sequential_visits_in_order_witness :
  @setup lcg_random GDIDataLayerImp (Demo.prm "valid" (Some true) None true)
    Demo.fs 0 7 [] Demo.tops = Ok (valid_layer, 7) /\
  idx valid_layer = 0 /\
  exists final,
    @steps lcg_random GDIDataLayerImp Demo.fs 5 valid_layer 7 Demo.tops =
      Ok ([0; 1; 0; 1; 0], final) /\
    idx (fst (fst final)) = 1.
Proof.
  assert (Hs : @setup lcg_random GDIDataLayerImp
                 (Demo.prm "valid" (Some true) None true)
                 Demo.fs 0 7 [] Demo.tops = Ok (valid_layer, 7))
    by reflexivity.
  assert (HN : (1 <= length (indices valid_layer))%nat) by (cbn; lia).
  destruct (@sequential_visits_in_order lcg_random _ _ _ _ _ _ _ _ _
              Hs eq_refl HN (layer0_loadable _ _ _ _ _)) as (H0 & _ & Hk & _).
  split; [exact Hs|]. split; [exact H0|]. exact (Hk 5%nat).
Defined.

(** ** Reading a run backwards *)

Section Inversion.

Context {R : PyRandom}.

Lemma getitem_ok_range {A : Type} (l : list A) (i : Z) (a : A) :
  getitem l i = Ok a -> 0 <= i -> i < Z.of_nat (length l).
Proof.
  unfold getitem. intros H Hi.
  destruct (Z.ltb_spec i 0) as [Hneg|_]; [lia|].
  destruct (Z.ltb_spec i 0) as [Hneg|_]; [lia|].
  destruct (Z.leb_spec (Z.of_nat (length l)) i) as [Hge|Hlt]; [discriminate|].
  exact Hlt.
Qed.

Lemma reshape_inv (cls : layer_class) (self : layer) (fs : filesystem)
  (bottom top : list blob) (self' : layer) (top' : list blob) :
  reshape cls self fs bottom top = Ok (self', top') ->
  exists name d l,
    getitem (indices self) (idx self) = Ok name /\
    load_image cls self fs name = Ok d /\
    load_label cls self fs name = Ok l /\
    self' = set_label (set_data self d) l.
Proof.
  unfold reshape. intros H.
  apply bind_ok in H. destruct H as (name & Hname & H).
  apply bind_ok in H. destruct H as (d & Hd & H).
  apply bind_ok in H. destruct H as (name' & Hname' & H).
  apply bind_ok in H. destruct H as (l & Hl & H).
  apply bind_ok in H. destruct H as (t0 & _ & H).
  apply bind_ok in H. destruct H as (t1 & _ & H).
  injection H as <- _.
  change (indices (set_data self d)) with (indices self) in Hname'.
  change (idx (set_data self d)) with (idx self) in Hname'.
  rewrite Hname in Hname'. injection Hname' as <-.
  exists name, d, l. repeat split; assumption.
Qed.

Lemma forward_inv (self : layer) (g : rng) (bottom top : list blob)
  (self' : layer) (g' : rng) (top' : list blob) :
  forward self g bottom top = Ok (self', g', top') ->
  self' = set_idx self (idx self') /\
  if random self then
    randint g 0 (Z.of_nat (length (indices self)) - 1) = Ok (idx self', g')
  else idx self' = next_sequential self /\ g' = g.
Proof.
  unfold forward. intros H.
  repeat (apply bind_ok in H; destruct H as (? & _ & H)).
  destruct (random self).
  - apply bind_ok in H. destruct H as ([i g2] & Hdraw & H).
    injection H as <- <- _. split; [reflexivity|exact Hdraw].
  - injection H as <- <- _. repeat split.
Qed.

(** One sample, read backwards: what was loaded and where the cursor went. *)
Lemma step_inv (cls : layer_class) (fs : filesystem) (self : layer) (g : rng)
  (top : list blob) (self' : layer) (g' : rng) (top' : list blob) :
  step cls fs self g top = Ok (self', g', top') ->
  exists name d l,
    getitem (indices self) (idx self) = Ok name /\
    load_image cls self fs name = Ok d /\
    load_label cls self fs name = Ok l /\
    self' = set_idx (set_label (set_data self d) l) (idx self') /\
    if random self then
      randint g 0 (Z.of_nat (length (indices self)) - 1) = Ok (idx self', g')
    else idx self' = next_sequential self /\ g' = g.
Proof.
  unfold step. intros H.
  apply bind_ok in H. destruct H as ([self1 top1] & Hre & Hfw).
  apply reshape_inv in Hre. destruct Hre as (name & d & l & Hn & Hd & Hl & ->).
  apply forward_inv in Hfw. destruct Hfw as [Hself Hcur].
  exists name, d, l. repeat split; assumption.
Qed.

(** Sequential mode, read backwards: whenever [k] samples were produced,
    they were the entries at consecutive positions modulo the length of the
    index list, and no random number was drawn. *)
Lemma steps_sequential_inv (cls : layer_class) (fs : filesystem) (k : nat) :
  forall (self : layer) (g : rng) (top : list blob) visited final,
    random self = false ->
    0 <= idx self ->
    steps cls fs k self g top = Ok (visited, final) ->
    visited = map (fun j => (idx self + Z.of_nat j) mod Z.of_nat (length (indices self)))
                (seq 0 k) /\
    random (fst (fst final)) = false /\
    snd (fst final) = g.
Proof.
  induction k as [|k IH]; intros self g top visited final Hr Hidx H.
  - cbn in H. injection H as <- <-. repeat split. exact Hr.
  - cbn [steps] in H.
    apply bind_ok in H. destruct H as ([[self' g'] top'] & Hstep & H).
    apply bind_ok in H. destruct H as ([visited' final'] & Hsteps & H).
    injection H as <- <-.
    apply step_inv in Hstep.
    destruct Hstep as (name & d & l & Hname & _ & _ & Hself & Hcur).
    change (random (set_label (set_data self d) l)) with (random self) in *.
    rewrite Hr in Hcur. destruct Hcur as [Hnext ->].
    pose proof (getitem_ok_range _ _ _ Hname Hidx) as Hlt.
    rewrite next_sequential_mod in Hnext by lia.
    assert (Hr' : random self' = false) by (rewrite Hself; exact Hr).
    assert (Hind : indices self' = indices self) by (rewrite Hself; reflexivity).
    assert (Hidx' : 0 <= idx self').
    { rewrite Hnext. apply Z.mod_pos_bound. lia. }
    destruct (IH self' g top' visited' final' Hr' Hidx' Hsteps) as (Hv & Hrf & Hg).
    split; [|split; assumption].
    rewrite Hv, Hind, Hnext. cbn [seq map]. rewrite <- seq_shift, map_map. f_equal.
    + cbn [Z.of_nat]. rewrite Z.add_0_r. symmetry. apply Z.mod_small. lia.
    + apply map_ext. intros j. rewrite Zplus_mod_idemp_l. f_equal. lia.
Qed.

End Inversion.

(** ** Splits without "train" (C2) *)

Section EvalSplit.

Context {R : PyRandom}.

(** C2. When the split name does not contain "train", whatever the
    configured randomize flag and seed: after [setup] the random field is
    False, the cursor is 0 and the generator is the one [setup] was given
    (nothing was seeded or drawn); and whenever k samples are then produced,
    the flag is still False, the generator is still untouched, and the
    positions visited are 0, 1, 2, ... modulo the number of entries. *)
Theorem eval_split_is_sequential (cls : layer_class) (prm : params)
  (fs : filesystem) (entropy : Z) (g : rng) (bottom top : list blob)
  (sp : string) (st : layer) (g' : rng) :
  p_split prm = Some sp ->
  contains "train" sp = false ->
  setup cls prm fs entropy g bottom top = Ok (st, g') ->
  random st = false /\ idx st = 0 /\ g' = g /\
  forall k visited final,
    steps cls fs k st g' top = Ok (visited, final) ->
    random (fst (fst final)) = false /\
    snd (fst final) = g /\
    visited = map (fun j => Z.of_nat j mod Z.of_nat (length (indices st))) (seq 0 k).
Proof.
  intros Hsp Hno Hsetup.
  destruct (setup_inv _ _ _ _ _ _ _ _ _ Hsetup)
    as (dir & sp' & m & b & content & _ & Hsp' & _ & _ & _ & _ & _ & _ & _ & _ & _
        & _ & _ & Hr & _ & _ & Hcur).
  rewrite Hsp in Hsp'. injection Hsp' as <-.
  rewrite Hno in Hr. cbn [andb] in Hr.
  rewrite Hr in Hcur. destruct Hcur as [Hidx ->].
  split; [exact Hr|]. split; [exact Hidx|]. split; [reflexivity|].
  intros k visited final Hsteps.
  assert (H0 : 0 <= idx st) by lia.
  destruct (steps_sequential_inv cls fs k st g top visited final Hr H0 Hsteps)
    as (Hv & Hrf & Hg).
  rewrite Hidx in Hv. repeat split; assumption.
Qed.

End EvalSplit.

Lemma eval_split_is_sequential_witness :
  @setup lcg_random GDIDataLayerImp (Demo.prm "valid" (Some true) (Some 42) true)
    Demo.fs 0 7 [] Demo.tops = Ok (valid_layer_seeded, 7) /\
  exists final,
    @steps lcg_random GDIDataLayerImp Demo.fs 3 valid_layer_seeded 7 Demo.tops =
      Ok ([0; 1; 0], final) /\
    random (fst (fst final)) = false /\ snd (fst final) = 7.
Proof.
  assert (Hs : @setup lcg_random GDIDataLayerImp
                 (Demo.prm "valid" (Some true) (Some 42) true)
                 Demo.fs 0 7 [] Demo.tops = Ok (valid_layer_seeded, 7))
    by reflexivity.
  split; [exact Hs|].
  destruct (@eval_split_is_sequential lcg_random GDIDataLayerImp
              (Demo.prm "valid" (Some true) (Some 42) true)
              Demo.fs 0 7 [] Demo.tops "valid" valid_layer_seeded 7
              eq_refl eq_refl Hs) as (_ & _ & _ & Hk).
  assert (Hidx : 0 <= idx valid_layer_seeded
                   < Z.of_nat (length (indices valid_layer_seeded)))
    by (cbn; lia).
  destruct (@steps_sequential lcg_random GDIDataLayerImp Demo.fs 3
              valid_layer_seeded 7 Demo.tops
              eq_refl Hidx (layer0_loadable _ _ _ _ _) eq_refl) as (final & E & _).
  exists final.
  destruct (Hk 3%nat _ final E) as (Hrf & Hg & _).
  split; [exact E|]. split; assumption.
Defined.

(** ** Random mode *)

Section RandomMode.

Context {R : PyRandom}.

Lemma randint_range (g : rng) (a b i : Z) (g' : rng) :
  randint g a b = Ok (i, g') -> a <= i <= b.
Proof.
  unfold randint, randrange. intros H.
  destruct (Z.ltb_spec 0 (b + 1 - a)) as [Hw|Hw]; [|discriminate].
  pose proof (randbelow_range g (b + 1 - a) Hw) as Hr.
  destruct (randbelow g (b + 1 - a)) as [r g2]. cbn [fst] in Hr.
  injection H as <- _. lia.
Qed.

Lemma randint_total (g : rng) (a b : Z) :
  a <= b -> exists i g', randint g a b = Ok (i, g').
Proof.
  intros Hab. unfold randint, randrange.
  destruct (Z.ltb_spec 0 (b + 1 - a)) as [Hw|Hw]; [|lia].
  destruct (randbelow g (b + 1 - a)) as [r g2]. exists (a + r), g2. reflexivity.
Qed.

(** With a seed, [setup] in random mode reads neither the generator it
    finds nor the operating system's entropy. *)
Lemma setup_seeded (cls : layer_class) (prm : params) (fs : filesystem)
  (s : Z) (sp : string) (e1 e2 : Z) (g1 g2 : rng) (bottom top : list blob) :
  p_seed prm = Some s ->
  p_split prm = Some sp ->
  contains "train" sp = true ->
  get (p_randomize prm) true = true ->
  setup cls prm fs e1 g1 bottom top = setup cls prm fs e2 g2 bottom top.
Proof.
  intros Hseed Hsp Htrain Hrand. unfold setup.
  rewrite Hseed, Hsp, Hrand.
  destruct (lookup (dir_key cls) (p_dir prm)) as [dir|e]; [|reflexivity].
  cbn [bind lookup].
  destruct (lookup "mean" (p_mean prm)) as [m|e]; [|reflexivity].
  cbn [bind].
  destruct (lookup "binarize" (p_binarize prm)) as [b|e]; [|reflexivity].
  cbn [bind].
  destruct (negb (length top =? 2)%nat); [reflexivity|].
  destruct (negb (length bottom =? 0)%nat); [reflexivity|].
  destruct (read_text fs (dir ++ "/GDI/" ++ sp ++ ".txt")) as [content|e];
    [|reflexivity].
  cbn [bind]. rewrite Htrain. reflexivity.
Qed.

(** Random mode, read backwards: every cursor of a run of samples is a
    valid position. *)
Lemma steps_random_inv (cls : layer_class) (fs : filesystem) (k : nat) :
  forall (self : layer) (g : rng) (top : list blob) visited final,
    random self = true ->
    0 <= idx self < Z.of_nat (length (indices self)) ->
    steps cls fs k self g top = Ok (visited, final) ->
    Forall (fun i => 0 <= i < Z.of_nat (length (indices self))) visited /\
    0 <= idx (fst (fst final)) < Z.of_nat (length (indices self)) /\
    indices (fst (fst final)) = indices self.
Proof.
  induction k as [|k IH]; intros self g top visited final Hr Hidx H.
  - cbn in H. injection H as <- <-. cbn [fst]. repeat split; try constructor; lia.
  - cbn [steps] in H.
    apply bind_ok in H. destruct H as ([[self' g'] top'] & Hstep & H).
    apply bind_ok in H. destruct H as ([visited' final'] & Hsteps & H).
    injection H as <- <-.
    apply step_inv in Hstep.
    destruct Hstep as (name & d & l & _ & _ & _ & Hself & Hcur).
    change (random (set_label (set_data self d) l)) with (random self) in *.
    change (indices (set_label (set_data self d) l)) with (indices self) in *.
    rewrite Hr in Hcur. apply randint_range in Hcur.
    assert (Hr' : random self' = true) by (rewrite Hself; exact Hr).
    assert (Hind : indices self' = indices self) by (rewrite Hself; reflexivity).
    assert (Hidx' : 0 <= idx self' < Z.of_nat (length (indices self')))
      by (rewrite Hind; lia).
    destruct (IH self' g' top' visited' final' Hr' Hidx' Hsteps) as (Hv & Hf & Hi).
    rewrite Hind in Hv, Hf, Hi.
    split; [|split; assumption].
    constructor; assumption.
Qed.

(** Random mode never gets stuck on a data set whose samples all load. *)
Lemma steps_random_total (cls : layer_class) (fs : filesystem) (k : nat) :
  forall (self : layer) (g : rng) (top : list blob),
    random self = true ->
    0 <= idx self < Z.of_nat (length (indices self)) ->
    loadable cls fs self ->
    length top = 2%nat ->
    exists visited final, steps cls fs k self g top = Ok (visited, final).
Proof.
  induction k as [|k IH]; intros self g top Hr Hidx Hload Htop.
  - exists [], (self, g, top). reflexivity.
  - destruct top as [|t0 [|t1 [|? ?]]]; try discriminate.
    destruct (reshape_loads cls fs self [] t0 t1 Hidx Hload)
      as (name & d & l & _ & _ & _ & Hre).
    destruct (forward_writes (set_label (set_data self d) l) g []
                (blob_reshape t0 (1%nat :: shape3 d))
                (blob_reshape t1 (1%nat :: label_shape l)) d l
                eq_refl eq_refl eq_refl eq_refl) as (top' & _ & Hlen & Hfw).
    change (random (set_label (set_data self d) l)) with (random self) in Hfw.
    change (indices (set_label (set_data self d) l)) with (indices self) in Hfw.
    rewrite Hr in Hfw.
    destruct (randint_total g 0 (Z.of_nat (length (indices self)) - 1))
      as (i & g' & Hdraw); [lia|].
    pose proof (randint_range _ _ _ _ _ Hdraw) as Hi.
    rewrite Hdraw in Hfw. cbn [bind] in Hfw.
    destruct (IH (set_idx (set_label (set_data self d) l) i) g' top')
      as (visited & final & Hsteps); try assumption.
    + cbn [idx indices set_idx set_label set_data]. lia.
    + exists (idx self :: visited), final.
      cbn [steps]. unfold step. rewrite Hre. cbn [bind]. rewrite Hfw. cbn [bind].
      rewrite Hsteps. reflexivity.
Qed.

Lemma step_same_config (cls : layer_class) (fs : filesystem) (self : layer)
  (g : rng) (top : list blob) (self' : layer) (g' : rng) (top' : list blob) :
  step cls fs self g top = Ok (self', g', top') -> same_config self self'.
Proof.
  intros H. apply step_inv in H.
  destruct H as (name & d & l & _ & _ & _ & -> & _).
  repeat split.
Qed.

Lemma steps_indices (cls : layer_class) (fs : filesystem) (k : nat) :
  forall (self : layer) (g : rng) (top : list blob) visited final,
    steps cls fs k self g top = Ok (visited, final) ->
    indices (fst (fst final)) = indices self.
Proof.
  induction k as [|k IH]; intros self g top visited final H.
  - cbn in H. injection H as <- <-. reflexivity.
  - cbn [steps] in H.
    apply bind_ok in H. destruct H as ([[self' g'] top'] & Hstep & H).
    apply bind_ok in H. destruct H as ([visited' final'] & Hsteps & H).
    injection H as <- <-.
    apply step_same_config in Hstep.
    rewrite (IH _ _ _ _ _ Hsteps). symmetry. apply Hstep.
Qed.

(** In random mode the positions of [k] samples are the cursor at the
    start followed by the first [k] draws from the generator at hand. *)
Lemma steps_random_draws (cls : layer_class) (fs : filesystem) (k : nat) :
  forall (self : layer) (g : rng) (top : list blob) visited final,
    random self = true ->
    steps cls fs k self g top = Ok (visited, final) ->
    (visited ++ [idx (fst (fst final))])%list =
      idx self :: draws g (Z.of_nat (length (indices self))) k /\
    snd (fst final) = after_draws g (Z.of_nat (length (indices self))) k.
Proof.
  induction k as [|k IH]; intros self g top visited final Hr H.
  - cbn in H. injection H as <- <-. split; reflexivity.
  - cbn [steps] in H.
    apply bind_ok in H. destruct H as ([[self' g'] top'] & Hstep & H).
    apply bind_ok in H. destruct H as ([visited' final'] & Hsteps & H).
    injection H as <- <-.
    apply step_inv in Hstep.
    destruct Hstep as (name & d & l & _ & _ & _ & Hself & Hcur).
    rewrite Hr in Hcur.
    assert (Hr' : random self' = true) by (rewrite Hself; exact Hr).
    assert (Hind : indices self' = indices self) by (rewrite Hself; reflexivity).
    destruct (IH self' g' top' visited' final' Hr' Hsteps) as [Hv Hg].
    rewrite Hind in Hv, Hg.
    cbn [draws after_draws app]. rewrite Hcur. split.
    + rewrite Hv. reflexivity.
    + exact Hg.
Qed.

End RandomMode.

(** ** Seeded runs (C3) *)

Section SeededRuns.

Context {R : PyRandom}.

(** C3. In random mode (split with "train", randomize not switched off)
    with a seed: two runs over the same configuration and files give the
    same result, cursor positions included, whatever state the generator
    was in and whatever the operating system's entropy is; [setup] draws
    the first position from the generator reseeded with the seed; every cursor
    position of a run, the one [setup] draws and the one each [forward]
    draws, lies in [0, N-1]; on a data set whose samples all load, a run
    of any length succeeds; every [forward] in random mode sets the cursor
    to the result of one [random.randint(0, N-1)] on the generator it finds
    and leaves the generator advanced by that draw; and the positions of a
    run, the final cursor included, are the first k+1 such draws from the
    generator reseeded with the seed, which is left advanced by exactly k+1
    draws. *)
Theorem seeded_runs_agree (cls : layer_class) (prm : params) (fs : filesystem)
  (s : Z) (sp : string) (e1 e2 : Z) (g1 g2 : rng) (bottom top : list blob) :
  p_seed prm = Some s ->
  p_split prm = Some sp ->
  contains "train" sp = true ->
  get (p_randomize prm) true = true ->
  (forall k, run cls prm fs e1 g1 bottom top k = run cls prm fs e2 g2 bottom top k) /\
  (forall k visited final,
     run cls prm fs e1 g1 bottom top k = Ok (visited, final) ->
     let N := Z.of_nat (length (indices (fst (fst final)))) in
     Forall (fun i => 0 <= i < N) visited /\ 0 <= idx (fst (fst final)) < N) /\
  (forall st g',
     setup cls prm fs e1 g1 bottom top = Ok (st, g') ->
     random st = true /\
     randint (seed_rng s) 0 (Z.of_nat (length (indices st)) - 1) = Ok (idx st, g') /\
     0 <= idx st < Z.of_nat (length (indices st)) /\
     (loadable cls fs st ->
      forall k, exists visited final,
        run cls prm fs e1 g1 bottom top k = Ok (visited, final))) /\
  (forall self g0 bottom0 top0 self' g' top',
     random self = true ->
     forward self g0 bottom0 top0 = Ok (self', g', top') ->
     randint g0 0 (Z.of_nat (length (indices self)) - 1) = Ok (idx self', g') /\
     indices self' = indices self /\ random self' = true) /\
  (forall k visited final,
     run cls prm fs e1 g1 bottom top k = Ok (visited, final) ->
     let N := Z.of_nat (length (indices (fst (fst final)))) in
     (visited ++ [idx (fst (fst final))])%list = draws (seed_rng s) N (S k) /\
     snd (fst final) = after_draws (seed_rng s) N (S k)).
Proof.
  intros Hseed Hsp Htrain Hrand.
  assert (Hst : forall st g',
             setup cls prm fs e1 g1 bottom top = Ok (st, g') ->
             random st = true /\ 0 <= idx st < Z.of_nat (length (indices st)) /\
             length top = 2%nat /\
             randint (seed_rng s) 0 (Z.of_nat (length (indices st)) - 1)
               = Ok (idx st, g')).
  { intros st g' Hsetup.
    destruct (setup_inv _ _ _ _ _ _ _ _ _ Hsetup)
      as (dir & sp' & m & b & content & _ & Hsp' & _ & _ & Htop & _ & _ & _ & _ & _
          & _ & _ & Hind & Hr & _ & _ & Hcur).
    rewrite Hsp in Hsp'. injection Hsp' as <-.
    rewrite Htrain, Hrand in Hr. cbn [andb] in Hr.
    rewrite Hr, Hseed in Hcur. cbn [random_seed] in Hcur.
    pose proof (randint_range _ _ _ _ _ Hcur) as Hrg.
    rewrite Hind. repeat split; try assumption; lia. }
  split; [|split; [|split; [|split]]].
  - intros k. unfold run.
    rewrite (setup_seeded cls prm fs s sp e1 e2 g1 g2 bottom top
               Hseed Hsp Htrain Hrand).
    reflexivity.
  - intros k visited final Hrun N. unfold run in Hrun.
    apply bind_ok in Hrun. destruct Hrun as ([st g'] & Hsetup & Hsteps).
    destruct (Hst st g' Hsetup) as (Hr & Hidx & _ & _).
    destruct (steps_random_inv cls fs k st g' top visited final Hr Hidx Hsteps)
      as (Hv & Hf & Hi).
    subst N. rewrite Hi. split; assumption.
  - intros st g' Hsetup.
    destruct (Hst st g' Hsetup) as (Hr & Hidx & Htop & Hdraw).
    split; [exact Hr|]. split; [exact Hdraw|]. split; [exact Hidx|].
    intros Hload k. unfold run. rewrite Hsetup. cbn [bind].
    exact (steps_random_total cls fs k st g' top Hr Hidx Hload Htop).
  - intros self g0 bottom0 top0 self' g' top' Hr Hfw.
    apply forward_inv in Hfw. destruct Hfw as [Hself Hcur].
    rewrite Hr in Hcur. split; [exact Hcur|].
    rewrite Hself. split; [reflexivity|exact Hr].
  - intros k visited final Hrun N. unfold run in Hrun.
    apply bind_ok in Hrun. destruct Hrun as ([st g'] & Hsetup & Hsteps).
    destruct (Hst st g' Hsetup) as (Hr & _ & _ & Hdraw).
    destruct (steps_random_draws cls fs k st g' top visited final Hr Hsteps)
      as [Hv Hg].
    pose proof (steps_indices cls fs k st g' top visited final Hsteps) as Hfin.
    subst N. rewrite Hfin.
    cbn [draws after_draws]. rewrite Hdraw. split; [exact Hv|exact Hg].
Qed.

End SeededRuns.

Lemma seeded_runs_agree_witness :
  @run lcg_random GDIDataLayerImp (Demo.prm "train" None (Some 42) true)
    Demo.fs 0 7 [] Demo.tops 4 =
  @run lcg_random GDIDataLayerImp (Demo.prm "train" None (Some 42) true)
    Demo.fs 99 12345 [] Demo.tops 4 /\
  exists visited final,
    @run lcg_random GDIDataLayerImp (Demo.prm "train" None (Some 42) true)
      Demo.fs 0 7 [] Demo.tops 4 = Ok (visited, final) /\
    Forall (fun i => 0 <= i < Z.of_nat (length (indices (fst (fst final))))) visited /\
    0 <= idx (fst (fst final)) < Z.of_nat (length (indices (fst (fst final)))) /\
    (visited ++ [idx (fst (fst final))])%list =
      @draws lcg_random (@seed_rng lcg_random 42)
        (Z.of_nat (length (indices (fst (fst final))))) 5.
Proof.
  destruct (@seeded_runs_agree lcg_random GDIDataLayerImp
              (Demo.prm "train" None (Some 42) true) Demo.fs 42 "train"
              0 99 7 12345 [] Demo.tops eq_refl eq_refl eq_refl eq_refl)
    as (Hsame & Hrange & _ & _ & Hdraws).
  split; [exact (Hsame 4%nat)|].
  assert (E : exists visited final,
             @run lcg_random GDIDataLayerImp (Demo.prm "train" None (Some 42) true)
               Demo.fs 0 7 [] Demo.tops 4 = Ok (visited, final))
    by (do 2 eexists; vm_compute; reflexivity).
  destruct E as (visited & final & E).
  exists visited, final. split; [exact E|].
  destruct (Hrange 4%nat visited final E) as [Hv Hf].
  split; [exact Hv|]. split; [exact Hf|].
  exact (proj1 (Hdraws 4%nat visited final E)).
Defined.

(** ** The manifest (C4) *)

Lemma append_assoc (a b c : string) : (a ++ b) ++ c = a ++ (b ++ c).
Proof.
  induction a as [|x a IH]; cbn; [reflexivity|]. rewrite IH. reflexivity.
Qed.

Lemma append_empty_r (a : string) : a ++ "" = a.
Proof.
  induction a as [|x a IH]; cbn; [reflexivity|]. rewrite IH. reflexivity.
Qed.

(** Reading a line up to its line feed. *)
Lemma splitlines_from_line (l : string) :
  forall cur rest,
    plain l = true ->
    splitlines_from cur (l ++ String LF rest) = (cur ++ l) :: splitlines_from "" rest.
Proof.
  induction l as [|c l IH]; intros cur rest Hp.
  - cbn. rewrite append_empty_r. reflexivity.
  - cbn [plain] in Hp. apply andb_true_iff in Hp. destruct Hp as [Hc Hl].
    apply negb_true_iff in Hc.
    cbn [append splitlines_from]. rewrite Hc.
    rewrite (IH _ _ Hl), append_assoc. reflexivity.
Qed.

(** Reading a last line that no line feed ends. *)
Lemma splitlines_from_last (l : string) :
  forall cur,
    plain l = true ->
    splitlines_from cur l =
      match cur ++ l with EmptyString => [] | _ => [cur ++ l] end.
Proof.
  induction l as [|c l IH]; intros cur Hp.
  - cbn. rewrite append_empty_r. reflexivity.
  - cbn [plain] in Hp. apply andb_true_iff in Hp. destruct Hp as [Hc Hl].
    apply negb_true_iff in Hc.
    cbn [splitlines_from]. rewrite Hc.
    rewrite (IH _ Hl), append_assoc. reflexivity.
Qed.

Lemma splitlines_unlines (ls : list string) (last : string) :
  Forall (fun l => plain l = true) ls ->
  plain last = true ->
  splitlines (unlines ls ++ last) =
    (ls ++ match last with EmptyString => [] | _ => [last] end)%list.
Proof.
  unfold splitlines. intros Hls Hlast.
  induction Hls as [|l ls Hl _ IH].
  - cbn [unlines append app]. rewrite (splitlines_from_last last "" Hlast).
    reflexivity.
  - cbn [unlines]. rewrite append_assoc.
    change (String LF (unlines ls) ++ last) with (String LF (unlines ls ++ last)).
    rewrite (splitlines_from_line l "" _ Hl), IH. reflexivity.
Qed.

Section Manifest.

Context {R : PyRandom}.

(** C4, as the code has it. The index list is the list of all lines of the
    manifest, in file order: [setup] stores [splitlines] of the file's
    text. For a file made of the lines [ls], each ended by a line feed, the
    index list is [ls] itself, empty lines included as empty identifiers;
    a non-empty last line without line feed is one more entry. *)
Theorem index_list_is_all_lines (cls : layer_class) (prm : params)
  (fs : filesystem) (entropy : Z) (g : rng) (bottom top : list blob)
  (st : layer) (g' : rng) (dir sp content : string) :
  setup cls prm fs entropy g bottom top = Ok (st, g') ->
  p_dir prm = Some dir ->
  p_split prm = Some sp ->
  fs_text fs (dir ++ "/GDI/" ++ sp ++ ".txt") = Some content ->
  indices st = splitlines content /\
  forall ls,
    Forall (fun l => plain l = true) ls ->
    (content = unlines ls -> indices st = ls) /\
    (forall last,
       plain last = true -> last <> "" ->
       content = unlines ls ++ last -> indices st = (ls ++ [last])%list).
Proof.
  intros Hsetup Hdir Hsp Hfile.
  destruct (setup_inv _ _ _ _ _ _ _ _ _ Hsetup)
    as (dir' & sp' & m & b & content' & Hdir' & Hsp' & _ & _ & _ & _ & Hfile' & _ & _
        & _ & _ & _ & Hind & _).
  rewrite Hdir in Hdir'. injection Hdir' as <-.
  rewrite Hsp in Hsp'. injection Hsp' as <-.
  rewrite Hfile in Hfile'. injection Hfile' as <-.
  split; [exact Hind|].
  intros ls Hls. split.
  - intros ->. rewrite Hind.
    rewrite <- (append_empty_r (unlines ls)).
    rewrite (splitlines_unlines ls "" Hls eq_refl). apply app_nil_r.
  - intros last Hlast Hne ->. rewrite Hind.
    rewrite (splitlines_unlines ls last Hls Hlast).
    destruct last; [contradiction|reflexivity].
Qed.

End Manifest.

Lemma index_list_is_all_lines_witness :
  @setup lcg_random GDIDataLayerImp (Demo.prm "valid" None None true)
    fs_gap 0 7 [] Demo.tops = Ok (gap_layer, 7) /\
  indices gap_layer = ["a"; ""; "b"].
Proof.
  assert (Hs : @setup lcg_random GDIDataLayerImp (Demo.prm "valid" None None true)
                 fs_gap 0 7 [] Demo.tops = Ok (gap_layer, 7)) by reflexivity.
  split; [exact Hs|].
  destruct (@index_list_is_all_lines lcg_random GDIDataLayerImp
              (Demo.prm "valid" None None true) fs_gap 0 7 [] Demo.tops
              gap_layer 7 "/data" "valid" manifest_gap Hs eq_refl eq_refl eq_refl)
    as [_ Hls].
  refine (proj1 (Hls ["a"; ""; "b"] _) eq_refl).
  repeat constructor.
Defined.

(** C4, as stated, fails: an empty line of the manifest is an entry of the
    index list, so the list is not the list of the non-empty lines. *)
Lemma empty_line_is_an_entry :
  @setup lcg_random GDIDataLayerImp (Demo.prm "valid" None None true)
    fs_gap 0 7 [] Demo.tops = Ok (gap_layer, 7) /\
  indices gap_layer = ["a"; ""; "b"] /\
  nonempty_lines manifest_gap = ["a"; "b"] /\
  indices gap_layer <> nonempty_lines manifest_gap.
Proof.
  repeat split; try reflexivity. discriminate.
Qed.

(** ** The slot check (C7) *)

Section Slots.

Context {R : PyRandom}.

(** C7. [setup] raises a configuration error whenever the number of tops
    is not two or the number of bottoms is not zero; with all required keys
    present the error is the [Exception] of the failed check, the tops being
    checked first. With two tops and no bottom, [setup] raises no
    [Exception]: the check passes. *)
Theorem setup_checks_slots (cls : layer_class) (prm : params) (fs : filesystem)
  (entropy : Z) (g : rng) (bottom top : list blob) :
  (length top <> 2%nat \/ length bottom <> 0%nat ->
   exists e, setup cls prm fs entropy g bottom top = Raise e /\
             is_configuration_error e = true) /\
  (forall dir sp m b,
     p_dir prm = Some dir -> p_split prm = Some sp ->
     p_mean prm = Some m -> p_binarize prm = Some b ->
     (length top <> 2%nat ->
      setup cls prm fs entropy g bottom top =
        Raise (Exception "Need to define two tops: data and label.")) /\
     (length top = 2%nat -> length bottom <> 0%nat ->
      setup cls prm fs entropy g bottom top =
        Raise (Exception "Do not define a bottom."))) /\
  (length top = 2%nat -> length bottom = 0%nat ->
   forall msg, setup cls prm fs entropy g bottom top <> Raise (Exception msg)).
Proof.
  split; [|split].
  - intros Hbad. unfold setup.
    destruct (p_dir prm) as [dir|]; [|eexists; split; reflexivity].
    destruct (p_split prm) as [sp|]; [|eexists; split; reflexivity].
    destruct (p_mean prm) as [m|]; [|eexists; split; reflexivity].
    destruct (p_binarize prm) as [b|]; [|eexists; split; reflexivity].
    cbn [lookup bind].
    destruct (Nat.eqb_spec (length top) 2) as [Et|Et];
      [|eexists; split; reflexivity].
    destruct (Nat.eqb_spec (length bottom) 0) as [Eb|Eb];
      [|eexists; split; reflexivity].
    destruct Hbad; contradiction.
  - intros dir sp m b Hdir Hsp Hm Hb. unfold setup.
    rewrite Hdir, Hsp, Hm, Hb. cbn [lookup bind]. split.
    + intros Ht. apply Nat.eqb_neq in Ht. rewrite Ht. reflexivity.
    + intros Ht Hbo. apply Nat.eqb_eq in Ht. apply Nat.eqb_neq in Hbo.
      rewrite Ht, Hbo. reflexivity.
  - intros Ht Hb msg Hraise.
    destruct (setup_slots _ _ _ _ _ _ _ _ Hraise); contradiction.
Qed.

End Slots.

(** One top only, and one bottom: both are refused. *)
Example setup_one_top :
  @setup lcg_random GDIDataLayerImp (Demo.prm "valid" None None true)
    Demo.fs 0 7 [] [Demo.blank] =
  Raise (Exception "Need to define two tops: data and label.").
Proof. reflexivity. Qed.

Example setup_one_bottom :
  @setup lcg_random GDIDataLayerImp (Demo.prm "valid" None None true)
    Demo.fs 0 7 [Demo.blank] Demo.tops =
  Raise (Exception "Do not define a bottom.").
Proof. reflexivity. Qed.

(** ** Label values (C5) *)

Lemma uint8_cases (P : Z -> bool) :
  forallb P (map Z.of_nat (seq 0 256)) = true ->
  forall v, 0 <= v < 256 -> P v = true.
Proof.
  intros H v Hv. rewrite forallb_forall in H. apply H.
  rewrite <- (Z2Nat.id v) by lia.
  apply in_map, in_seq. lia.
Qed.

Lemma threshold_exact (v : Z) :
  0 <= v < 256 -> (threshold <? of_uint8 v)%float = above_two_thirds v.
Proof.
  intros Hv.
  apply eqb_prop.
  apply (uint8_cases
           (fun v => Bool.eqb (threshold <? of_uint8 v)%float (above_two_thirds v)));
    [vm_compute; reflexivity | exact Hv].
Qed.

Lemma rescale_nearest (v : Z) :
  0 <= v < 256 -> nearest_quotient v (of_uint8 v / 255)%float = true.
Proof.
  apply (uint8_cases (fun v => nearest_quotient v (of_uint8 v / 255)%float)).
  vm_compute. reflexivity.
Qed.

Lemma Forall2_map_same {A B : Type} (P : A -> Prop) (Q : A -> B -> Prop)
  (f : A -> B) (l : list A) :
  (forall a, P a -> Q a (f a)) -> Forall P l -> Forall2 Q l (map f l).
Proof.
  intros HPQ Hl. induction Hl as [|a l Ha _ IH]; cbn; constructor; auto.
Qed.

Lemma map_ext_Forall {A B : Type} (P : A -> Prop) (f g : A -> B) (l : list A) :
  (forall a, P a -> f a = g a) -> Forall P l -> map f l = map g l.
Proof.
  intros Hfg Hl. induction Hl as [|a l Ha _ IH]; cbn; [reflexivity|].
  rewrite (Hfg a Ha), IH. reflexivity.
Qed.

(** The values of a well-formed single-band image are uint8. *)
Lemma gray_values_uint8 (h w : nat) (im : pil_image) :
  wf_image h w im ->
  Forall (Forall (fun v => 0 <= v < 256)) (gray_values im).
Proof.
  intros [[_ Hshape] Hval]. unfold gray_values.
  apply Forall_map.
  rewrite Forall_forall in Hval, Hshape |- *.
  intros row Hrow. apply Forall_map.
  pose proof (Hval row Hrow) as Hr. pose proof (Hshape row Hrow) as [_ Hpx].
  rewrite Forall_forall in Hr, Hpx |- *.
  intros px Hin. pose proof (Hr px Hin) as Hv. pose proof (Hpx px Hin) as Hlen.
  destruct px as [|v rest]; cbn [hd].
  - lia.
  - inversion Hv; assumption.
Qed.

(** [load_label] on a single-band image: the decoded values, thresholded
    or rescaled, under one new leading axis. *)
Lemma load_label_gray (cls : layer_class) (self : layer) (fs : filesystem)
  (name : string) (lab : pil_image) :
  fs_image fs (maindir self ++ "/GDI/" ++ label_dir cls ++ "/" ++ name ++ ".png")
    = Some lab ->
  im_mode lab = L ->
  load_label cls self fs name =
    Ok (if binarize self
        then BoolArray
               (Rank3 [map (map (fun v => (threshold <? of_uint8 v)%float))
                         (gray_values lab)])
        else FloatArray
               (Rank3 [map (map (fun v => (of_uint8 v / 255)%float))
                         (gray_values lab)])).
Proof.
  intros Hfile Hmode.
  unfold load_label, Image_open. rewrite Hfile. cbn [bind].
  unfold np_array. rewrite Hmode. fold (gray_values lab).
  destruct (binarize self); reflexivity.
Qed.

(** C5. For a single-band label image with uint8 values, [load_label]
    with binarize gives, under one leading axis of extent 1, the boolean
    array of value > 255*2/3 (that is value > 170), and without binarize the
    float array of value / 255.0, each entry being the binary64 nearest to
    the exact quotient. *)
Theorem load_label_values (cls : layer_class) (self : layer) (fs : filesystem)
  (name : string) (im : pil_image) (h w : nat) :
  fs_image fs (maindir self ++ "/GDI/" ++ label_dir cls ++ "/" ++ name ++ ".png")
    = Some im ->
  im_mode im = L ->
  wf_image h w im ->
  if binarize self then
    load_label cls self fs name =
      Ok (BoolArray (Rank3 [map (map above_two_thirds) (gray_values im)]))
  else
    exists a,
      load_label cls self fs name = Ok (FloatArray (Rank3 [a])) /\
      a = map (map (fun v => (of_uint8 v / 255)%float)) (gray_values im) /\
      Forall2 (Forall2 (fun v x => nearest_quotient v x = true)) (gray_values im) a.
Proof.
  intros Hfile Hmode Hwf.
  pose proof (gray_values_uint8 h w im Hwf) as Hu8.
  rewrite (load_label_gray cls self fs name im Hfile Hmode).
  destruct (binarize self).
  - do 4 f_equal.
    apply (map_ext_Forall (Forall (fun v => 0 <= v < 256))); [|exact Hu8].
    intros row Hrow.
    apply (map_ext_Forall (fun v => 0 <= v < 256)); [|exact Hrow].
    exact threshold_exact.
  - eexists. split; [reflexivity|]. split; [reflexivity|].
    apply (Forall2_map_same (Forall (fun v => 0 <= v < 256))); [|exact Hu8].
    intros row Hrow.
    apply (Forall2_map_same (fun v => 0 <= v < 256)); [|exact Hrow].
    exact rescale_nearest.
Qed.

Lemma label_a_wf : wf_image 2 2 Demo.label_a.
Proof.
  split.
  - split; [reflexivity|]. repeat constructor.
  - repeat constructor; cbn; lia.
Qed.

Lemma load_label_values_witness :
  gray_values Demo.label_a = [[0; 170]; [200; 255]] /\
  load_label GDIDataLayerImp (Demo.layer0 "train" true None true 0) Demo.fs "a" =
    Ok (BoolArray (Rank3 [[[false; false]; [true; true]]])) /\
  exists a,
    load_label GDIDataLayerImp (Demo.layer0 "train" true None false 0)
      Demo.fs "a" = Ok (FloatArray (Rank3 [a])) /\
    Forall2 (Forall2 (fun x t => rounds_to_thousandths x t = true))
      a [[0; 667]; [784; 1000]].
Proof.
  split; [reflexivity|]. split.
  - exact (load_label_values GDIDataLayerImp (Demo.layer0 "train" true None true 0)
             Demo.fs "a" Demo.label_a 2 2 eq_refl eq_refl label_a_wf).
  - destruct (load_label_values GDIDataLayerImp
                (Demo.layer0 "train" true None false 0)
                Demo.fs "a" Demo.label_a 2 2 eq_refl eq_refl label_a_wf)
      as (a & Hload & Ha & _).
    exists a. split; [exact Hload|].
    rewrite Ha. repeat constructor.
Defined.

(** ** Image values (C6) *)

Lemma has_shape3_pixels {A : Type} (h w c : nat) (a : arr3 A) :
  has_shape3 h w c a -> Forall (Forall (fun p => length p = c)) a.
Proof.
  intros [_ H]. rewrite Forall_forall in H |- *.
  intros row Hrow. exact (proj2 (H row Hrow)).
Qed.

Lemma has_shape2_map_map {A B : Type} (h w c : nat) (f : list A -> B) (a : arr3 A) :
  has_shape3 h w c a -> has_shape2 h w (map (map f) a).
Proof.
  intros [Hlen H]. split.
  - rewrite length_map. exact Hlen.
  - apply Forall_map. rewrite Forall_forall in H |- *.
    intros row Hrow. rewrite length_map. exact (proj1 (H row Hrow)).
Qed.

(** One plane of the transposed difference, pixel by pixel. *)
Lemma transposed_plane (k : nat) (mean : list float) (a : arr3 Z) :
  length mean = 3%nat ->
  (k < 3)%nat ->
  Forall (Forall (fun p => length p = 3%nat)) a ->
  map (map (fun px : list float => nth k px 0%float))
    (map (map (fun px : list float =>
                 map (fun vm => to_float32 (fst vm - snd vm)%float)
                   (combine px mean)))
       (map (map (@rev float)) (map (map (map of_uint8)) a))) =
  map (map (fun p =>
              to_float32
                (PrimFloat.sub (of_uint8 (nth (2 - k)%nat p 0))
                               (nth k mean 0%float))))
    a.
Proof.
  intros Hmean Hk Ha. rewrite !map_map.
  apply (map_ext_Forall (Forall (fun p => length p = 3%nat))); [|exact Ha].
  intros row Hrow. rewrite !map_map.
  apply (map_ext_Forall (fun p => length p = 3%nat)); [|exact Hrow].
  intros [|r [|g0 [|b [|? ?]]]] Hlen; try discriminate Hlen.
  destruct mean as [|m0 [|m1 [|m2 [|? ?]]]]; try discriminate Hmean.
  destruct k as [|[|[|k]]]; [reflexivity|reflexivity|reflexivity|lia].
Qed.

(** [load_image] on an RGB image with a mean of three entries computes the
    reference array, which is rectangular. *)
Lemma load_image_rgb (cls : layer_class) (self : layer)
  (fs : filesystem) (name : string) (im : pil_image) (h w : nat)
  (m0 m1 m2 : float) :
  fs_image fs (maindir self ++ "/GDI/" ++ image_dir cls ++ "/" ++ name ++ ".jpg")
    = Some im ->
  im_mode im = RGB ->
  wf_image h w im ->
  mean self = [m0; m1; m2] ->
  load_image cls self fs name = Ok (reference_bgr (im_px im) (mean self)) /\
  has_shape3 3 h w (reference_bgr (im_px im) (mean self)).
Proof.
  intros Hfile Hmode [Hshape _] Hmean.
  rewrite Hmode in Hshape. cbn [bands] in Hshape.
  split.
  - unfold load_image, Image_open. rewrite Hfile. cbn [bind].
    unfold np_array. rewrite Hmode. cbn [bands].
    unfold isub. rewrite Hmean. cbn [length Nat.eqb bind].
    unfold transpose_201, reference_bgr. cbn [seq map].
    pose proof (has_shape3_pixels _ _ _ _ Hshape) as Hpx.
    rewrite !transposed_plane by (try exact Hpx; cbn; lia).
    reflexivity.
  - unfold reference_bgr. split; [reflexivity|].
    cbn [map].
    repeat (apply Forall_cons; [exact (has_shape2_map_map h w 3 _ _ Hshape)|]).
    apply Forall_nil.
Qed.

Lemma nth_map_lt {A B : Type} (f : A -> B) (l : list A) (n : nat) (d : A) (d' : B) :
  (n < length l)%nat -> nth n (map f l) d' = f (nth n l d).
Proof.
  intros Hn. rewrite (nth_indep _ d' (f d)) by (rewrite length_map; exact Hn).
  apply map_nth.
Qed.

Lemma has_shape3_row {A : Type} (h w c : nat) (a : arr3 A) (y : nat) :
  has_shape3 h w c a -> (y < h)%nat -> length (nth y a []) = w.
Proof.
  intros [Hlen H] Hy. rewrite Forall_forall in H.
  apply (H (nth y a [])). apply nth_In. lia.
Qed.

(** C6. For an RGB image and a mean of three entries, [load_image] returns
    exactly the reference array, of shape (3, h, w): entry (c, y, x) of the
    result is the source value of band 2 - c at (y, x), as float, minus
    entry c of the mean (the difference stored as float32). *)
Theorem load_image_is_reference (cls : layer_class) (self : layer)
  (fs : filesystem) (name : string) (im : pil_image) (h w : nat)
  (m0 m1 m2 : float) :
  fs_image fs (maindir self ++ "/GDI/" ++ image_dir cls ++ "/" ++ name ++ ".jpg")
    = Some im ->
  im_mode im = RGB ->
  wf_image h w im ->
  mean self = [m0; m1; m2] ->
  exists t,
    load_image cls self fs name = Ok t /\
    t = reference_bgr (im_px im) (mean self) /\
    has_shape3 3 h w t /\
    forall c y x,
      (c < 3)%nat -> (y < h)%nat -> (x < w)%nat ->
      nth x (nth y (nth c t []) []) 0%float =
        to_float32
          (PrimFloat.sub (of_uint8 (nth (2 - c)%nat (nth x (nth y (im_px im) []) []) 0))
                         (nth c (mean self) 0%float)).
Proof.
  intros Hfile Hmode Hwf Hmean.
  destruct (load_image_rgb cls self fs name im h w m0 m1 m2 Hfile Hmode Hwf Hmean)
    as [Hload Hshape].
  exists (reference_bgr (im_px im) (mean self)).
  split; [exact Hload|]. split; [reflexivity|]. split; [exact Hshape|].
  intros c y x Hc Hy Hx.
  destruct Hwf as [Hpx _]. rewrite Hmode in Hpx. cbn [bands] in Hpx.
  assert (Hplane : nth c (reference_bgr (im_px im) (mean self)) [] =
                   map (map (fun p =>
                               to_float32
                                 (PrimFloat.sub (of_uint8 (nth (2 - c)%nat p 0))
                                                (nth c (mean self) 0%float))))
                       (im_px im)).
  { unfold reference_bgr. destruct c as [|[|[|c]]]; [reflexivity..|lia]. }
  rewrite Hplane.
  rewrite (nth_map_lt _ (im_px im) y [] [])
    by (destruct Hpx as [-> _]; exact Hy).
  rewrite (nth_map_lt _ (nth y (im_px im) []) x [] 0%float)
    by (rewrite (has_shape3_row h w 3 _ y Hpx Hy); exact Hx).
  reflexivity.
Qed.

Lemma grid_wf : wf_image 4 4 Grid.image.
Proof.
  split.
  - split; [reflexivity|]. repeat constructor.
  - repeat constructor; cbn; lia.
Qed.

Lemma load_image_is_reference_witness :
  load_image GDIDataLayerImp Grid.self Grid.fs "grid" = Ok Grid.expected /\
  has_shape3 3 4 4 Grid.expected /\
  nth 3 (nth 3 (nth 2 Grid.expected []) []) 0%float = 27%float.
Proof.
  destruct (load_image_is_reference GDIDataLayerImp Grid.self Grid.fs "grid"
              Grid.image 4 4 104%float 117%float 123%float
              eq_refl eq_refl grid_wf eq_refl)
    as (t & Hload & Ht & Hshape & Hnth).
  assert (E : t = Grid.expected) by (rewrite Ht; reflexivity).
  rewrite E in Hload, Hshape, Hnth.
  split; [exact Hload|]. split; [exact Hshape|].
  rewrite (Hnth 2%nat 3%nat 3%nat) by (cbn; lia).
  reflexivity.
Defined.

(** ** Images that do not load (C8) *)

(** C8. With a mean of three entries, [load_image] raises instead of
    returning an array whenever the file cannot be opened ([IOError]) or
    the image does not have exactly three bands: a single-band image fails
    at the channel reversal ([IndexError]), any other band count at the
    subtraction of the mean ([ValueError]). *)
Theorem load_image_raises (cls : layer_class) (self : layer) (fs : filesystem)
  (name : string) :
  length (mean self) = 3%nat ->
  let path := maindir self ++ "/GDI/" ++ image_dir cls ++ "/" ++ name ++ ".jpg" in
  (fs_image fs path = None ->
   load_image cls self fs name = Raise (IOError path)) /\
  (forall im,
     fs_image fs path = Some im ->
     bands (im_mode im) <> 3%nat ->
     load_image cls self fs name =
       Raise (match im_mode im with L => IndexError | _ => ValueError end)).
Proof.
  intros Hmean path. split.
  - intros Hnone. unfold load_image, Image_open. fold path. rewrite Hnone.
    reflexivity.
  - intros im Hfile Hbands. unfold load_image, Image_open. fold path.
    rewrite Hfile. cbn [bind]. unfold np_array, isub. rewrite Hmean.
    destruct (mean self) as [|m0 [|m1 [|m2 [|? ?]]]]; try discriminate Hmean.
    destruct (im_mode im); cbn in Hbands |- *; try reflexivity.
    contradiction.
Qed.

Lemma load_image_raises_witness :
  load_image GDIDataLayerImp Grid.self Odd.fs "absent" =
    Raise (IOError "/data/GDI/gd_train/absent.jpg") /\
  load_image GDIDataLayerImp Grid.self Odd.fs "gray" = Raise IndexError /\
  load_image GDIDataLayerImp Grid.self Odd.fs "cmyk" = Raise ValueError.
Proof.
  split; [|split].
  - exact (proj1 (load_image_raises GDIDataLayerImp Grid.self Odd.fs "absent"
                    eq_refl) eq_refl).
  - refine (proj2 (load_image_raises GDIDataLayerImp Grid.self Odd.fs "gray"
                     eq_refl) Odd.gray eq_refl _).
    discriminate.
  - refine (proj2 (load_image_raises GDIDataLayerImp Grid.self Odd.fs "cmyk"
                     eq_refl) Odd.cmyk eq_refl _).
    discriminate.
Defined.

(** The channel count is checked by nothing but the broadcast against the
    mean: with a mean of one entry a four-band image loads. *)
Example load_image_four_bands_scalar_mean :
  is_ok (load_image GDIDataLayerImp
           {| maindir := "/data"; split := "train"; mean := [104%float];
              random := true; seed := None; binarize := true;
              indices := ["cmyk"]; idx := 0; data := None; label := None |}
           Odd.fs "cmyk") = true.
Proof. reflexivity. Qed.

(** ** Shapes (C9) *)

Lemma has_shape2_map {A B : Type} (h w : nat) (f : A -> B) (a : arr2 A) :
  has_shape2 h w a -> has_shape2 h w (map (map f) a).
Proof.
  intros [Hlen H]. split.
  - rewrite length_map. exact Hlen.
  - apply Forall_map. rewrite Forall_forall in H |- *.
    intros row Hrow. rewrite length_map. exact (H row Hrow).
Qed.

Lemma has_shape2_hd {A : Type} (h w : nat) (a : arr2 A) :
  has_shape2 h w a -> (1 <= h)%nat -> length (hd [] a) = w.
Proof.
  intros [Hlen H] Hh. destruct a as [|row rest]; cbn in Hlen; [lia|].
  inversion H; assumption.
Qed.

(** On a rectangular array without empty outer axis, [shape3] gives the
    extents. *)
Lemma has_shape3_shape {A : Type} (n h w : nat) (a : arr3 A) :
  has_shape3 n h w a -> (1 <= n)%nat -> (1 <= h)%nat -> shape3 a = [n; h; w].
Proof.
  intros [Hlen H] Hn Hh. unfold shape3.
  destruct a as [|p rest]; cbn in Hlen; [lia|].
  inversion H as [|? ? Hp _]; subst. cbn [hd length].
  rewrite (has_shape2_hd h w p Hp Hh). destruct Hp as [-> _]. reflexivity.
Qed.

Lemma label_has_shape_shape (n h w : nat) (l : label_array) :
  label_has_shape n h w l -> (1 <= n)%nat -> (1 <= h)%nat ->
  label_shape l = [n; h; w].
Proof.
  destruct l as [[a|a]|[a|a]]; cbn [label_has_shape label_shape nd_shape];
    try contradiction; apply has_shape3_shape.
Qed.

Lemma getitem_ok_nonempty {A : Type} (l : list A) (i : Z) (a : A) :
  getitem l i = Ok a -> (1 <= length l)%nat.
Proof.
  unfold getitem. intros H.
  destruct l as [|x l]; [|cbn; lia].
  exfalso. cbn [length Z.of_nat] in H.
  destruct (Z.ltb_spec (if i <? 0 then i + 0 else i) 0);
    destruct (Z.leb_spec 0 (if i <? 0 then i + 0 else i));
    cbn in H; try discriminate; lia.
Qed.

(** The label array of a single-band image is rectangular. *)
Lemma load_label_shape (cls : layer_class) (self : layer) (fs : filesystem)
  (name : string) (lab : pil_image) (h w : nat) :
  fs_image fs (maindir self ++ "/GDI/" ++ label_dir cls ++ "/" ++ name ++ ".png")
    = Some lab ->
  im_mode lab = L ->
  wf_image h w lab ->
  exists l, load_label cls self fs name = Ok l /\ label_has_shape 1 h w l.
Proof.
  intros Hfile Hmode [Hshape _].
  assert (Hg : has_shape2 h w (gray_values lab))
    by exact (has_shape2_map_map h w _ _ _ Hshape).
  eexists. split; [exact (load_label_gray cls self fs name lab Hfile Hmode)|].
  destruct (binarize self); cbn [label_has_shape];
    (split; [reflexivity|]); (constructor; [|constructor]);
    apply has_shape2_map; exact Hg.
Qed.

Section Shapes.

Context {R : PyRandom}.

(** C9. For a sample whose image is RGB of height h and width w and
    whose label is single-band of the same height and width (mean of three
    entries): [reshape] succeeds, [self.data] is a rectangular array of
    shape (3, h, w), [self.label] one of shape (1, h, w), the tops are
    announced as (1, 3, h, w) and (1, 1, h, w) with the batch axis in
    front, and [forward] then writes exactly these two arrays into tops of
    these shapes. *)
Theorem sample_shapes (cls : layer_class) (self : layer) (fs : filesystem)
  (bottom : list blob) (t0 t1 : blob) (name : string) (im lab : pil_image)
  (h w : nat) :
  getitem (indices self) (idx self) = Ok name ->
  fs_image fs (maindir self ++ "/GDI/" ++ image_dir cls ++ "/" ++ name ++ ".jpg")
    = Some im ->
  im_mode im = RGB ->
  wf_image h w im ->
  fs_image fs (maindir self ++ "/GDI/" ++ label_dir cls ++ "/" ++ name ++ ".png")
    = Some lab ->
  im_mode lab = L ->
  wf_image h w lab ->
  length (mean self) = 3%nat ->
  (1 <= h)%nat ->
  exists d l t0' t1',
    reshape cls self fs bottom [t0; t1] =
      Ok (set_label (set_data self d) l, [t0'; t1']) /\
    has_shape3 3 h w d /\ shape3 d = [3; h; w]%nat /\
    label_has_shape 1 h w l /\ label_shape l = [1; h; w]%nat /\
    blob_shape t0' = [1; 3; h; w]%nat /\
    blob_shape t1' = [1; 1; h; w]%nat /\
    forall g, exists self' g' b0 b1,
      forward (set_label (set_data self d) l) g bottom [t0'; t1'] =
        Ok (self', g', [b0; b1]) /\
      b0 = {| blob_shape := [1; 3; h; w]%nat; blob_data := Some (ImageData d) |} /\
      b1 = {| blob_shape := [1; 1; h; w]%nat; blob_data := Some (LabelData l) |}.
Proof.
  intros Hname Himg Hrgb Hwf Hlab HL Hwfl Hmean Hh.
  assert (Hm : exists m0 m1 m2, mean self = [m0; m1; m2]).
  { destruct (mean self) as [|m0 [|m1 [|m2 [|? ?]]]]; try discriminate Hmean.
    exists m0, m1, m2. reflexivity. }
  destruct Hm as (m0 & m1 & m2 & Hm).
  destruct (load_image_rgb cls self fs name im h w m0 m1 m2
              Himg Hrgb Hwf Hm) as [Hd Hds].
  destruct (load_label_shape cls self fs name lab h w Hlab HL Hwfl) as (l & Hl & Hls).
  set (d := reference_bgr (im_px im) (mean self)) in *.
  pose proof (has_shape3_shape 3 h w d Hds (le_S _ _ (le_S _ _ (le_n 1))) Hh) as Hsd.
  pose proof (label_has_shape_shape 1 h w l Hls (le_n 1) Hh) as Hsl.
  exists d, l, (blob_reshape t0 (1%nat :: shape3 d)),
    (blob_reshape t1 (1%nat :: label_shape l)).
  split.
  { unfold reshape. rewrite Hname. cbn [bind]. rewrite Hd. cbn [bind].
    change (indices (set_data self d)) with (indices self).
    change (idx (set_data self d)) with (idx self).
    rewrite Hname. cbn [bind].
    change (load_label cls (set_data self d) fs name) with (load_label cls self fs name).
    rewrite Hl. reflexivity. }
  split; [exact Hds|]. split; [exact Hsd|].
  split; [exact Hls|]. split; [exact Hsl|].
  split; [cbn [blob_reshape blob_shape]; rewrite Hsd; reflexivity|].
  split; [cbn [blob_reshape blob_shape]; rewrite Hsl; reflexivity|].
  intros g.
  destruct (forward_writes (set_label (set_data self d) l) g bottom
              (blob_reshape t0 (1%nat :: shape3 d))
              (blob_reshape t1 (1%nat :: label_shape l)) d l
              eq_refl eq_refl eq_refl eq_refl) as (top' & Htop' & _ & Hfw).
  cbn [blob_reshape blob_shape] in Htop'. rewrite Hsd, Hsl in Htop'.
  change (random (set_label (set_data self d) l)) with (random self) in Hfw.
  change (indices (set_label (set_data self d) l)) with (indices self) in Hfw.
  destruct (random self).
  - pose proof (getitem_ok_nonempty _ _ _ Hname) as Hne.
    destruct (randint_total g 0 (Z.of_nat (length (indices self)) - 1))
      as (i & g' & Hdraw); [lia|].
    rewrite Hdraw in Hfw. cbn [bind] in Hfw.
    do 4 eexists. split; [rewrite Hfw, Htop'; reflexivity|].
    split; reflexivity.
  - do 4 eexists. split; [rewrite Hfw, Htop'; reflexivity|].
    split; reflexivity.
Qed.

End Shapes.

Lemma image_a_wf : wf_image 2 2 Demo.image_a.
Proof.
  split.
  - split; [reflexivity|]. repeat constructor.
  - repeat constructor; cbn; lia.
Qed.

Lemma sample_shapes_witness :
  exists d l t0' t1',
    reshape GDIDataLayerImp valid_layer Demo.fs [] Demo.tops =
      Ok (set_label (set_data valid_layer d) l, [t0'; t1']) /\
    shape3 d = [3; 2; 2]%nat /\ label_shape l = [1; 2; 2]%nat /\
    blob_shape t0' = [1; 3; 2; 2]%nat /\ blob_shape t1' = [1; 1; 2; 2]%nat.
Proof.
  destruct (@sample_shapes lcg_random GDIDataLayerImp valid_layer Demo.fs []
              Demo.blank Demo.blank "a" Demo.image_a Demo.label_a 2 2
              eq_refl eq_refl eq_refl image_a_wf eq_refl eq_refl label_a_wf
              eq_refl (le_S _ _ (le_n 1)))
    as (d & l & t0' & t1' & Hre & _ & Hsd & _ & Hsl & H0 & H1 & _).
  exists d, l, t0', t1'. repeat split; assumption.
Defined.

(** ** The cursor under reshape (C10) *)

Lemma getitem_first {A : Type} (x : A) (l : list A) : getitem (x :: l) 0 = Ok x.
Proof.
  destruct (getitem_in_range (x :: l) 0) as (a & Hget & Hnth); [cbn [length]; lia|].
  cbn in Hnth. injection Hnth as <-. exact Hget.
Qed.

Lemma getitem_second {A : Type} (x y : A) (l : list A) :
  getitem (x :: y :: l) 1 = Ok y.
Proof.
  destruct (getitem_in_range (x :: y :: l) 1) as (a & Hget & Hnth);
    [cbn [length]; lia|].
  change (Z.to_nat 1) with 1%nat in Hnth. cbn in Hnth.
  injection Hnth as <-. exact Hget.
Qed.

Lemma getitem_short {A : Type} (l : list A) (i : Z) :
  0 <= i -> (length l <= Z.to_nat i)%nat -> getitem l i = Raise IndexError.
Proof.
  intros Hi Hlen. apply getitem_out_of_range. lia.
Qed.

(** What a successful [reshape] did to the layer and to the tops. *)
Lemma reshape_result (cls : layer_class) (self : layer) (fs : filesystem)
  (bottom top : list blob) (self' : layer) (top' : list blob) :
  reshape cls self fs bottom top = Ok (self', top') ->
  exists name d l t0 t1 rest,
    getitem (indices self) (idx self) = Ok name /\
    load_image cls self fs name = Ok d /\
    load_label cls self fs name = Ok l /\
    top = (t0 :: t1 :: rest)%list /\
    self' = set_label (set_data self d) l /\
    top' = (blob_reshape t0 (1%nat :: shape3 d)
            :: blob_reshape t1 (1%nat :: label_shape l) :: rest)%list.
Proof.
  intros H.
  destruct (reshape_inv _ _ _ _ _ _ _ H) as (name & d & l & Hname & Hd & Hl & Hself).
  unfold reshape in H. rewrite Hname in H. cbn [bind] in H.
  rewrite Hd in H. cbn [bind] in H.
  change (indices (set_data self d)) with (indices self) in H.
  change (idx (set_data self d)) with (idx self) in H.
  rewrite Hname in H. cbn [bind] in H.
  change (load_label cls (set_data self d) fs name)
    with (load_label cls self fs name) in H.
  rewrite Hl in H. cbn [bind] in H.
  destruct top as [|t0 [|t1 rest]].
  - rewrite getitem_short in H by (cbn; lia). discriminate.
  - rewrite getitem_first in H. cbn [bind setitem] in H.
    rewrite getitem_short in H by (cbn; lia). discriminate.
  - rewrite getitem_first in H. cbn [bind setitem] in H.
    rewrite getitem_second in H. cbn [bind setitem] in H.
    injection H as _ <-.
    exists name, d, l, t0, t1, rest. repeat split; assumption.
Qed.

(** A second [reshape] right after a successful one changes nothing. *)
Lemma reshape_again (cls : layer_class) (self : layer) (fs : filesystem)
  (bottom top : list blob) (self' : layer) (top' : list blob) :
  reshape cls self fs bottom top = Ok (self', top') ->
  reshape cls self' fs bottom top' = Ok (self', top').
Proof.
  intros H.
  destruct (reshape_result _ _ _ _ _ _ _ H)
    as (name & d & l & t0 & t1 & rest & Hname & Hd & Hl & -> & -> & ->).
  unfold reshape.
  change (indices (set_label (set_data self d) l)) with (indices self).
  change (idx (set_label (set_data self d) l)) with (idx self).
  rewrite Hname. cbn [bind].
  change (load_image cls (set_label (set_data self d) l) fs name)
    with (load_image cls self fs name).
  rewrite Hd. cbn [bind].
  change (indices (set_data (set_label (set_data self d) l) d)) with (indices self).
  change (idx (set_data (set_label (set_data self d) l) d)) with (idx self).
  rewrite Hname. cbn [bind].
  change (load_label cls (set_data (set_label (set_data self d) l) d) fs name)
    with (load_label cls self fs name).
  rewrite Hl. cbn [bind].
  rewrite getitem_first. cbn [bind setitem].
  rewrite getitem_second. cbn [bind setitem].
  reflexivity.
Qed.

(** C10. [reshape] leaves the cursor and the index list as they are, and
    so does [backward]. Called any number of times in a row on the same
    files, it resolves the same entry [indices[idx]] and ends each time with
    the same image, label and tops as the first call. *)
Theorem reshape_keeps_cursor (cls : layer_class) (fs : filesystem) (self : layer)
  (bottom top : list blob) (self' : layer) (top' : list blob) :
  reshape cls self fs bottom top = Ok (self', top') ->
  idx self' = idx self /\
  indices self' = indices self /\
  idx (backward self) = idx self /\
  (exists name d l,
     getitem (indices self) (idx self) = Ok name /\
     load_image cls self fs name = Ok d /\
     load_label cls self fs name = Ok l /\
     data self' = Some d /\ label self' = Some l) /\
  forall n, reshapes cls fs (S n) self bottom top = Ok (self', top').
Proof.
  intros H.
  destruct (reshape_inv _ _ _ _ _ _ _ H) as (name & d & l & Hname & Hd & Hl & Hself).
  split; [rewrite Hself; reflexivity|].
  split; [rewrite Hself; reflexivity|].
  split; [reflexivity|].
  split.
  - exists name, d, l. rewrite Hself. repeat split; assumption.
  - intros n. cbn [reshapes]. rewrite H. cbn [bind].
    induction n as [|n IH]; [reflexivity|].
    cbn [reshapes]. rewrite (reshape_again _ _ _ _ _ _ _ H). cbn [bind]. exact IH.
Qed.

Lemma reshape_keeps_cursor_witness :
  exists self' top',
    reshape GDIDataLayerImp (Demo.layer0 "valid" false None true 1) Demo.fs []
      Demo.tops = Ok (self', top') /\
    idx self' = 1 /\
    reshapes GDIDataLayerImp Demo.fs 3 (Demo.layer0 "valid" false None true 1) []
      Demo.tops = Ok (self', top').
Proof.
  assert (E : exists self' top',
             reshape GDIDataLayerImp (Demo.layer0 "valid" false None true 1)
               Demo.fs [] Demo.tops = Ok (self', top'))
    by (do 2 eexists; vm_compute; reflexivity).
  destruct E as (self' & top' & E).
  exists self', top'.
  destruct (reshape_keeps_cursor GDIDataLayerImp Demo.fs
              (Demo.layer0 "valid" false None true 1) [] Demo.tops self' top' E)
    as (Hidx & _ & _ & _ & Hn).
  split; [exact E|]. split; [exact Hidx|]. exact (Hn 2%nat).
Defined.

(** * Further properties *)

(** ** Errors of setup *)

Lemma splitlines_from_nil (s cur : string) :
  splitlines_from cur s = [] -> s = "" /\ cur = "".
Proof.
  revert cur. induction s as [|c s IH]; intros cur H.
  - cbn in H. destruct cur; [split; reflexivity|discriminate].
  - cbn [splitlines_from] in H. destruct (is_linebreak c).
    + destruct (Ascii.eqb c CR); [destruct s as [|c' s']|]; try discriminate.
      destruct (Ascii.eqb c' LF); discriminate.
    + apply IH in H. destruct H as [_ H]. destruct cur; discriminate.
Qed.

(** Only the empty text has no lines. *)
Lemma splitlines_nil (s : string) : splitlines s = [] <-> s = "".
Proof.
  split.
  - intros H. exact (proj1 (splitlines_from_nil s "" H)).
  - intros ->. reflexivity.
Qed.

Section SetupErrors.

Context {R : PyRandom}.

(** X1. A missing required key is what [setup] reports first: the
    [KeyError] names the first absent key among the data directory,
    "split", "mean" and "binarize", whatever the tops, the bottoms and the
    files are; when none of the four is absent, [setup] raises no
    [KeyError], "randomize" and "seed" being optional. *)
Theorem setup_key_errors (cls : layer_class) (prm : params) (fs : filesystem)
  (entropy : Z) (g : rng) (bottom top : list blob) :
  match first_missing cls prm with
  | Some key => setup cls prm fs entropy g bottom top = Raise (KeyError key)
  | None => forall key, setup cls prm fs entropy g bottom top <> Raise (KeyError key)
  end.
Proof.
  unfold first_missing, setup.
  destruct (p_dir prm) as [dir|]; [|reflexivity].
  destruct (p_split prm) as [sp|]; [|reflexivity].
  destruct (p_mean prm) as [m|]; [|reflexivity].
  destruct (p_binarize prm) as [b|]; [|reflexivity].
  cbn [lookup bind]. intros key.
  destruct (negb (length top =? 2)%nat); [discriminate|].
  destruct (negb (length bottom =? 0)%nat); [discriminate|].
  unfold read_text. destruct (fs_text fs _); [|discriminate].
  cbn [bind random].
  destruct (if negb (contains "train" sp) then false else get (p_randomize prm) true);
    [|discriminate].
  unfold randint, randrange.
  destruct (0 <? _); [|discriminate].
  destruct (randbelow _ _). discriminate.
Qed.

(** X2. [setup] succeeds exactly on a complete configuration with two
    tops, no bottom and a readable manifest that, in random mode (split
    with "train", randomize not switched off), is not the empty text. *)
Theorem setup_ok_iff (cls : layer_class) (prm : params) (fs : filesystem)
  (entropy : Z) (g : rng) (bottom top : list blob) :
  is_ok (setup cls prm fs entropy g bottom top) = true <->
  exists dir sp m b content,
    p_dir prm = Some dir /\ p_split prm = Some sp /\ p_mean prm = Some m /\
    p_binarize prm = Some b /\
    length top = 2%nat /\ length bottom = 0%nat /\
    fs_text fs (dir ++ "/GDI/" ++ sp ++ ".txt") = Some content /\
    (contains "train" sp && get (p_randomize prm) true = true ->
     content <> "").
Proof.
  split.
  - intros Hok. apply is_ok_true in Hok. destruct Hok as [[st g'] Hsetup].
    destruct (setup_inv _ _ _ _ _ _ _ _ _ Hsetup)
      as (dir & sp & m & b & content & Hdir & Hsp & Hm & Hb & Htop & Hbot & Hfile
          & _ & _ & _ & _ & _ & _ & Hr & _ & _ & Hcur).
    exists dir, sp, m, b, content. repeat split; try assumption.
    intros Hrand Hnil. rewrite Hrand in Hr. rewrite Hr in Hcur.
    apply randint_range in Hcur. rewrite Hnil in Hcur. cbn in Hcur. lia.
  - intros (dir & sp & m & b & content & Hdir & Hsp & Hm & Hb & Htop & Hbot
            & Hfile & Hne).
    unfold setup. rewrite Hdir, Hsp, Hm, Hb. cbn [lookup bind].
    rewrite Htop, Hbot. cbn [Nat.eqb negb].
    unfold read_text. rewrite Hfile. cbn [bind random seed indices].
    destruct (contains "train" sp); cbn [negb andb] in *; [|reflexivity].
    destruct (get (p_randomize prm) true); [|reflexivity].
    destruct (randint_total (random_seed (p_seed prm) entropy) 0
                (Z.of_nat (length (splitlines content)) - 1)) as (i & g' & Hdraw).
    + specialize (Hne eq_refl). rewrite <- splitlines_nil in Hne.
      destruct (splitlines content); [contradiction|].
      cbn [length]. lia.
    + rewrite Hdraw. reflexivity.
Qed.

End SetupErrors.

Section SetupEdges.

Context {R : PyRandom}.

(** X3. With a complete configuration, two tops and no bottom, a manifest
    that cannot be read makes [setup] raise [IOError] for the path
    [<dir>/GDI/<split>.txt]; and this path is the only one an [IOError] of
    [setup] ever names. *)
Theorem setup_missing_manifest (cls : layer_class) (prm : params)
  (fs : filesystem) (entropy : Z) (g : rng) (bottom top : list blob)
  (dir sp : string) (m : list float) (b : bool) :
  p_dir prm = Some dir -> p_split prm = Some sp ->
  p_mean prm = Some m -> p_binarize prm = Some b ->
  (length top = 2%nat -> length bottom = 0%nat ->
   fs_text fs (dir ++ "/GDI/" ++ sp ++ ".txt") = None ->
   setup cls prm fs entropy g bottom top =
     Raise (IOError (dir ++ "/GDI/" ++ sp ++ ".txt"))) /\
  (forall path,
     setup cls prm fs entropy g bottom top = Raise (IOError path) ->
     path = dir ++ "/GDI/" ++ sp ++ ".txt" /\ fs_text fs path = None).
Proof.
  intros Hdir Hsp Hm Hb. unfold setup. rewrite Hdir, Hsp, Hm, Hb.
  cbn [lookup bind]. split.
  - intros Htop Hbot Hfile. rewrite Htop, Hbot. cbn [Nat.eqb negb].
    unfold read_text. rewrite Hfile. reflexivity.
  - intros path H.
    destruct (negb (length top =? 2)%nat); [discriminate|].
    destruct (negb (length bottom =? 0)%nat); [discriminate|].
    unfold read_text in H.
    destruct (fs_text fs (dir ++ "/GDI/" ++ sp ++ ".txt")) as [content|] eqn:Ef.
    + exfalso. cbn [bind random] in H.
      destruct (if negb (contains "train" sp) then false
                else get (p_randomize prm) true); [|discriminate].
      unfold randint, randrange in H.
      destruct (0 <? _); [|discriminate].
      destruct (randbelow _ _). discriminate.
    + cbn [bind] in H. injection H as <-. split; [reflexivity|exact Ef].
Qed.

(** X4. An empty manifest. In random mode [setup] itself fails, with the
    [ValueError] of [randint(0, -1)]. In sequential mode [setup] succeeds
    with an empty index list and the cursor at 0, the generator untouched,
    and it is the first [reshape] that fails, with [IndexError], so that no
    sample is ever produced. *)
Theorem setup_empty_manifest (cls : layer_class) (prm : params)
  (fs : filesystem) (entropy : Z) (g : rng) (bottom top : list blob)
  (dir sp : string) (m : list float) (b : bool) :
  p_dir prm = Some dir -> p_split prm = Some sp ->
  p_mean prm = Some m -> p_binarize prm = Some b ->
  length top = 2%nat -> length bottom = 0%nat ->
  fs_text fs (dir ++ "/GDI/" ++ sp ++ ".txt") = Some "" ->
  if contains "train" sp && get (p_randomize prm) true then
    setup cls prm fs entropy g bottom top = Raise ValueError
  else
    exists st,
      setup cls prm fs entropy g bottom top = Ok (st, g) /\
      indices st = [] /\ idx st = 0 /\ random st = false /\
      (forall bottom' top', reshape cls st fs bottom' top' = Raise IndexError) /\
      (forall k, steps cls fs (S k) st g top = Raise IndexError).
Proof.
  intros Hdir Hsp Hm Hb Htop Hbot Hfile.
  unfold setup. rewrite Hdir, Hsp, Hm, Hb. cbn [lookup bind].
  rewrite Htop, Hbot. cbn [Nat.eqb negb].
  unfold read_text. rewrite Hfile. cbn [bind random seed indices].
  change (splitlines "") with (@nil string).
  assert (Hdraw : forall g0, randint g0 0 (Z.of_nat (length (@nil string)) - 1)
                             = Raise ValueError)
    by (intros g0; reflexivity).
  assert (Hseq : forall st,
             indices st = [] -> idx st = 0 ->
             (forall bottom' top', reshape cls st fs bottom' top' = Raise IndexError) /\
             (forall k, steps cls fs (S k) st g top = Raise IndexError)).
  { intros st Hind Hidx.
    assert (Hre : forall bottom' top',
               reshape cls st fs bottom' top' = Raise IndexError).
    { intros bottom' top'. unfold reshape. rewrite Hind, Hidx. reflexivity. }
    split; [exact Hre|].
    intros k. cbn [steps]. unfold step. rewrite Hre. reflexivity. }
  destruct (contains "train" sp); cbn [negb andb].
  - destruct (get (p_randomize prm) true).
    + rewrite Hdraw. reflexivity.
    + eexists. split; [reflexivity|]. split; [reflexivity|].
      split; [reflexivity|]. split; [reflexivity|]. apply Hseq; reflexivity.
  - eexists. split; [reflexivity|]. split; [reflexivity|].
    split; [reflexivity|]. split; [reflexivity|]. apply Hseq; reflexivity.
Qed.

End SetupEdges.

Lemma setup_missing_manifest_witness :
  @setup lcg_random GDIDataLayerImp (Demo.prm "test" None None true)
    Demo.fs 0 7 [] Demo.tops = Raise (IOError "/data/GDI/test.txt").
Proof.
  exact (proj1 (@setup_missing_manifest lcg_random GDIDataLayerImp
                  (Demo.prm "test" None None true) Demo.fs 0 7 [] Demo.tops
                  "/data" "test" Demo.mean_bgr true
                  eq_refl eq_refl eq_refl eq_refl)
           eq_refl eq_refl eq_refl).
Defined.

Lemma setup_empty_manifest_witness :
  @setup lcg_random GDIDataLayerImp (Demo.prm "train" None (Some 42) true)
    fs_empty 0 7 [] Demo.tops = Raise ValueError /\
  exists st,
    @setup lcg_random GDIDataLayerImp (Demo.prm "valid" None (Some 42) true)
      fs_empty 0 7 [] Demo.tops = Ok (st, 7) /\
    indices st = [] /\
    reshape GDIDataLayerImp st fs_empty [] Demo.tops = Raise IndexError.
Proof.
  split.
  - exact (@setup_empty_manifest lcg_random GDIDataLayerImp
             (Demo.prm "train" None (Some 42) true) fs_empty 0 7 [] Demo.tops
             "/data" "train" Demo.mean_bgr true
             eq_refl eq_refl eq_refl eq_refl eq_refl eq_refl eq_refl).
  - destruct (@setup_empty_manifest lcg_random GDIDataLayerImp
                (Demo.prm "valid" None (Some 42) true) fs_empty 0 7 [] Demo.tops
                "/data" "valid" Demo.mean_bgr true
                eq_refl eq_refl eq_refl eq_refl eq_refl eq_refl eq_refl)
      as (st & Hs & Hind & _ & _ & Hre & _).
    exists st. split; [exact Hs|]. split; [exact Hind|]. apply Hre.
Defined.

(** ** Invariants of a run *)

Section RunInvariants.

Context {R : PyRandom}.

(** X5. After a successful [setup] the random flag is True exactly when
    the split name has "train" as a substring and randomize is absent or
    True; when the flag is False, the cursor is 0 and the generator is the
    one [setup] was given. *)
Theorem random_flag_iff (cls : layer_class) (prm : params) (fs : filesystem)
  (entropy : Z) (g : rng) (bottom top : list blob) (sp : string)
  (st : layer) (g' : rng) :
  setup cls prm fs entropy g bottom top = Ok (st, g') ->
  p_split prm = Some sp ->
  (random st = true <->
   (exists a b, sp = a ++ "train" ++ b) /\ p_randomize prm <> Some false) /\
  (random st = false -> idx st = 0 /\ g' = g).
Proof.
  intros Hsetup Hsp.
  destruct (setup_inv _ _ _ _ _ _ _ _ _ Hsetup)
    as (dir & sp' & m & b & content & _ & Hsp' & _ & _ & _ & _ & _ & _ & _ & _ & _
        & _ & _ & Hr & _ & _ & Hcur).
  rewrite Hsp in Hsp'. injection Hsp' as <-.
  split.
  - rewrite Hr, andb_true_iff, contains_spec.
    destruct (p_randomize prm) as [[|]|]; cbn [get];
      split; intros [Ht Hrand]; split; try assumption;
      try reflexivity; try discriminate; congruence.
  - intros Hfalse. rewrite Hfalse in Hcur. exact Hcur.
Qed.

(** X6. No sample changes what [setup] fixed: after any number of
    samples the layer has the same data directory, split, mean, random
    flag, seed, binarize flag and index list, and one position was visited
    per sample. *)
Theorem steps_keep_config (cls : layer_class) (fs : filesystem) (k : nat)
  (self : layer) (g : rng) (top : list blob) (visited : list Z)
  (final : layer * rng * list blob) :
  steps cls fs k self g top = Ok (visited, final) ->
  same_config self (fst (fst final)) /\ length visited = k.
Proof.
  revert self g top visited final.
  induction k as [|k IH]; intros self g top visited final H.
  - cbn in H. injection H as <- <-. repeat split.
  - cbn [steps] in H.
    apply bind_ok in H. destruct H as ([[self' g'] top'] & Hstep & H).
    apply bind_ok in H. destruct H as ([visited' final'] & Hsteps & H).
    injection H as <- <-.
    apply step_same_config in Hstep.
    destruct (IH _ _ _ _ _ Hsteps) as [Hcfg Hlen].
    split; [|cbn [length]; rewrite Hlen; reflexivity].
    destruct Hstep as (H1 & H2 & H3 & H4 & H5 & H6 & H7).
    destruct Hcfg as (K1 & K2 & K3 & K4 & K5 & K6 & K7).
    repeat split; congruence.
Qed.

Lemma next_sequential_range (self : layer) :
  0 <= idx self < Z.of_nat (length (indices self)) ->
  0 <= next_sequential self < Z.of_nat (length (indices self)).
Proof.
  intros H. rewrite next_sequential_mod by exact H.
  apply Z.mod_pos_bound. lia.
Qed.

(** In either mode the cursor stays on the index list. *)
Lemma steps_cursor_range (cls : layer_class) (fs : filesystem) (k : nat) :
  forall (self : layer) (g : rng) (top : list blob) visited final,
    0 <= idx self ->
    steps cls fs k self g top = Ok (visited, final) ->
    Forall (fun i => 0 <= i < Z.of_nat (length (indices self))) visited /\
    indices (fst (fst final)) = indices self /\
    0 <= idx (fst (fst final)) /\
    (idx self < Z.of_nat (length (indices self)) \/ (1 <= k)%nat ->
     idx (fst (fst final)) < Z.of_nat (length (indices self))).
Proof.
  induction k as [|k IH]; intros self g top visited final Hidx H.
  - cbn in H. injection H as <- <-. cbn [fst].
    split; [constructor|]. split; [reflexivity|]. split; [exact Hidx|].
    intros [Hlt|Hk]; [exact Hlt|lia].
  - cbn [steps] in H.
    apply bind_ok in H. destruct H as ([[self' g'] top'] & Hstep & H).
    apply bind_ok in H. destruct H as ([visited' final'] & Hsteps & H).
    injection H as <- <-.
    apply step_inv in Hstep.
    destruct Hstep as (name & d & l & Hname & _ & _ & Hself & Hcur).
    pose proof (getitem_ok_range _ _ _ Hname Hidx) as Hlt.
    assert (Hind : indices self' = indices self) by (rewrite Hself; reflexivity).
    assert (Hidx' : 0 <= idx self' < Z.of_nat (length (indices self))).
    { destruct (random self).
      - apply randint_range in Hcur. lia.
      - destruct Hcur as [-> _]. apply next_sequential_range. lia. }
    destruct (IH self' g' top' visited' final') as (Hv & Hi & H0 & Hfin);
      [lia|exact Hsteps|].
    rewrite Hind in Hv, Hi, Hfin.
    split; [constructor; [lia|exact Hv]|].
    split; [exact Hi|]. split; [exact H0|].
    intros _. apply Hfin. left. lia.
Qed.

(** X7. In either mode, once a run has produced at least one sample, every
    position it visited and the cursor it ends on are positions of the
    index list, so the lookup [indices[idx]] of the next [reshape] finds an
    entry. *)
Theorem run_cursor_on_list (cls : layer_class) (prm : params) (fs : filesystem)
  (entropy : Z) (g : rng) (bottom top : list blob) (k : nat)
  (visited : list Z) (final : layer * rng * list blob) :
  run cls prm fs entropy g bottom top k = Ok (visited, final) ->
  (1 <= k)%nat ->
  let self := fst (fst final) in
  Forall (fun i => 0 <= i < Z.of_nat (length (indices self))) visited /\
  0 <= idx self < Z.of_nat (length (indices self)) /\
  exists name, getitem (indices self) (idx self) = Ok name /\ In name (indices self).
Proof.
  intros Hrun Hk self. unfold run in Hrun.
  apply bind_ok in Hrun. destruct Hrun as ([st g'] & Hsetup & Hsteps).
  assert (H0 : 0 <= idx st).
  { destruct (setup_inv _ _ _ _ _ _ _ _ _ Hsetup)
      as (dir & sp & m & b & content & _ & _ & _ & _ & _ & _ & _ & _ & _ & _ & _
          & _ & _ & _ & _ & _ & Hcur).
    destruct (random st).
    - apply randint_range in Hcur. lia.
    - destruct Hcur as [-> _]. lia. }
  destruct (steps_cursor_range cls fs k st g' top visited final H0 Hsteps)
    as (Hv & Hi & Hge & Hlt).
  fold self in Hi, Hge, Hlt. rewrite <- Hi in Hv, Hlt.
  assert (Hrange : 0 <= idx self < Z.of_nat (length (indices self)))
    by (split; [exact Hge | apply Hlt; right; exact Hk]).
  split; [exact Hv|]. split; [exact Hrange|].
  destruct (getitem_in_range _ _ Hrange) as (name & Hget & Hnth).
  exists name. split; [exact Hget|]. exact (nth_error_In _ _ Hnth).
Qed.

(** X8. In random mode the positions of a run are the successive results
    of [random.randint(0, N-1)] on the generator that [setup] seeded, one
    for [setup] and one per [forward]: loading a sample draws nothing, and
    after k samples the generator has advanced by exactly k+1 draws. *)
Theorem random_run_is_draws (cls : layer_class) (prm : params) (fs : filesystem)
  (entropy : Z) (g : rng) (bottom top : list blob) (sp : string) (k : nat)
  (visited : list Z) (final : layer * rng * list blob) :
  p_split prm = Some sp ->
  contains "train" sp = true ->
  get (p_randomize prm) true = true ->
  run cls prm fs entropy g bottom top k = Ok (visited, final) ->
  let N := Z.of_nat (length (indices (fst (fst final)))) in
  let g0 := random_seed (p_seed prm) entropy in
  (visited ++ [idx (fst (fst final))])%list = draws g0 N (S k) /\
  snd (fst final) = after_draws g0 N (S k).
Proof.
  intros Hsp Htrain Hrand Hrun N g0. unfold run in Hrun.
  apply bind_ok in Hrun. destruct Hrun as ([st g'] & Hsetup & Hsteps).
  destruct (setup_inv _ _ _ _ _ _ _ _ _ Hsetup)
    as (dir & sp' & m & b & content & _ & Hsp' & _ & _ & _ & _ & _ & _ & _ & _ & _
        & _ & Hind & Hr & _ & _ & Hcur).
  rewrite Hsp in Hsp'. injection Hsp' as <-.
  rewrite Htrain, Hrand in Hr. cbn [andb] in Hr. rewrite Hr in Hcur.
  destruct (steps_random_draws cls fs k st g' top visited final Hr Hsteps)
    as [Hv Hg].
  pose proof (steps_indices cls fs k st g' top visited final Hsteps) as Hfin.
  subst N g0. rewrite Hfin. rewrite <- Hind in Hcur.
  cbn [draws after_draws]. rewrite Hcur. split; [exact Hv|exact Hg].
Qed.

End RunInvariants.

Lemma random_flag_iff_witness :
  exists st g',
    @setup lcg_random GDIDataLayerImp (Demo.prm "train" None (Some 42) true)
      Demo.fs 0 7 [] Demo.tops = Ok (st, g') /\
    random st = true.
Proof.
  assert (E : exists st g',
             @setup lcg_random GDIDataLayerImp (Demo.prm "train" None (Some 42) true)
               Demo.fs 0 7 [] Demo.tops = Ok (st, g'))
    by (do 2 eexists; vm_compute; reflexivity).
  destruct E as (st & g' & E). exists st, g'. split; [exact E|].
  apply (proj1 (@random_flag_iff lcg_random GDIDataLayerImp
                  (Demo.prm "train" None (Some 42) true) Demo.fs 0 7 []
                  Demo.tops "train" st g' E eq_refl)).
  split; [exists "", ""; reflexivity | discriminate].
Defined.

Lemma steps_keep_config_witness :
  exists visited final,
    @steps lcg_random GDIDataLayerImp Demo.fs 3 valid_layer 7 Demo.tops =
      Ok (visited, final) /\
    same_config valid_layer (fst (fst final)) /\ length visited = 3%nat.
Proof.
  assert (E : exists visited final,
             @steps lcg_random GDIDataLayerImp Demo.fs 3 valid_layer 7 Demo.tops =
               Ok (visited, final))
    by (do 2 eexists; vm_compute; reflexivity).
  destruct E as (visited & final & E). exists visited, final.
  split; [exact E|].
  exact (@steps_keep_config lcg_random GDIDataLayerImp Demo.fs 3 valid_layer 7
           Demo.tops visited final E).
Defined.

Lemma run_cursor_on_list_witness :
  exists visited final,
    @run lcg_random GDIDataLayerImp (Demo.prm "train" (Some false) None true)
      Demo.fs 0 7 [] Demo.tops 3 = Ok (visited, final) /\
    0 <= idx (fst (fst final)) < Z.of_nat (length (indices (fst (fst final)))).
Proof.
  assert (E : exists visited final,
             @run lcg_random GDIDataLayerImp (Demo.prm "train" (Some false) None true)
               Demo.fs 0 7 [] Demo.tops 3 = Ok (visited, final))
    by (do 2 eexists; vm_compute; reflexivity).
  destruct E as (visited & final & E). exists visited, final.
  split; [exact E|].
  refine (proj1 (proj2 (@run_cursor_on_list lcg_random GDIDataLayerImp
                          (Demo.prm "train" (Some false) None true) Demo.fs 0 7 []
                          Demo.tops 3 visited final E _))).
  lia.
Defined.

Lemma random_run_is_draws_witness :
  exists visited final,
    @run lcg_random GDIDataLayerImp (Demo.prm "train" None (Some 42) true)
      Demo.fs 0 7 [] Demo.tops 3 = Ok (visited, final) /\
    (visited ++ [idx (fst (fst final))])%list =
      @draws lcg_random (@seed_rng lcg_random 42)
        (Z.of_nat (length (indices (fst (fst final))))) 4.
Proof.
  assert (E : exists visited final,
             @run lcg_random GDIDataLayerImp (Demo.prm "train" None (Some 42) true)
               Demo.fs 0 7 [] Demo.tops 3 = Ok (visited, final))
    by (do 2 eexists; vm_compute; reflexivity).
  destruct E as (visited & final & E). exists visited, final.
  split; [exact E|].
  exact (proj1 (@random_run_is_draws lcg_random GDIDataLayerImp
                  (Demo.prm "train" None (Some 42) true) Demo.fs 0 7 []
                  Demo.tops "train" 3 visited final
                  eq_refl eq_refl eq_refl E)).
Defined.

(** ** The band count and the mean *)

(** X9. [load_image] returns an array exactly when the file opens, the
    image has more than one band, and the mean has either one entry per
    band or a single entry; the channel count is checked by nothing else. *)
Theorem load_image_ok_iff (cls : layer_class) (self : layer) (fs : filesystem)
  (name : string) :
  is_ok (load_image cls self fs name) = true <->
  exists im,
    fs_image fs (maindir self ++ "/GDI/" ++ image_dir cls ++ "/" ++ name ++ ".jpg")
      = Some im /\
    im_mode im <> L /\
    (length (mean self) = bands (im_mode im) \/ length (mean self) = 1%nat).
Proof.
  unfold load_image, Image_open.
  destruct (fs_image fs _) as [[md px]|]; cbn [bind].
  - unfold np_array, isub. cbn [im_mode im_px].
    destruct md; cbn [bands bind is_ok].
    1: { split; [discriminate|].
         intros (im' & Him & Hne & _). injection Him as <-.
         exfalso. apply Hne. reflexivity. }
    all: match goal with
         | |- context [(length ?l =? ?n)%nat] =>
             destruct (Nat.eqb_spec (length l) n) as [E|E]
         end.
    all: cbn [bind is_ok].
    all: try (split; [intros _|reflexivity]; eexists;
              (split; [reflexivity|split; [discriminate|left; exact E]])).
    all: destruct (mean self) as [|m0 [|m1 rest]]; cbn [bind is_ok].
    all: split.
    all: try discriminate.
    all: try reflexivity.
    all: try (intros _; eexists;
              (split; [reflexivity|split; [discriminate|right; reflexivity]])).
    all: intros (im' & Him & _ & [Hlen|Hlen]); injection Him as <-;
         cbn [im_mode bands length] in Hlen; first [contradiction | discriminate Hlen].
  - split; [discriminate|]. intros (im & Him & _). discriminate.
Qed.

(** ** Labels, rescaled and thresholded *)

Lemma rescale_unscale (v : Z) :
  0 <= v < 256 -> unscale (of_uint8 v / 255)%float = Some v.
Proof.
  intros Hv.
  assert (H : match unscale (of_uint8 v / 255)%float with
              | Some u => u =? v
              | None => false
              end = true).
  { revert v Hv.
    apply (uint8_cases (fun v => match unscale (of_uint8 v / 255)%float with
                                 | Some u => u =? v
                                 | None => false
                                 end)).
    vm_compute. reflexivity. }
  destruct (unscale (of_uint8 v / 255)%float) as [u|]; [|discriminate].
  apply Z.eqb_eq in H. congruence.
Qed.

Lemma rescale_in_unit_interval (v : Z) :
  0 <= v < 256 -> in_unit_interval (of_uint8 v / 255)%float = true.
Proof.
  apply (uint8_cases (fun v => in_unit_interval (of_uint8 v / 255)%float)).
  vm_compute. reflexivity.
Qed.

Lemma threshold_of_rescaled (v : Z) :
  0 <= v < 256 ->
  (threshold <? of_uint8 v)%float = exceeds_two_thirds (of_uint8 v / 255)%float.
Proof.
  intros Hv. apply eqb_prop. revert v Hv.
  apply (uint8_cases
           (fun v => Bool.eqb (threshold <? of_uint8 v)%float
                       (exceeds_two_thirds (of_uint8 v / 255)%float))).
  vm_compute. reflexivity.
Qed.

(** X10. Rescaling loses nothing: for a single-band label image,
    [load_label] without binarize returns floats in [0, 1] from which every
    label value is recovered as the integer nearest to 255 times the
    float. *)
Theorem rescale_round_trip (cls : layer_class) (self : layer) (fs : filesystem)
  (name : string) (lab : pil_image) (h w : nat) :
  fs_image fs (maindir self ++ "/GDI/" ++ label_dir cls ++ "/" ++ name ++ ".png")
    = Some lab ->
  im_mode lab = L ->
  wf_image h w lab ->
  binarize self = false ->
  exists a,
    load_label cls self fs name = Ok (FloatArray (Rank3 [a])) /\
    map (map unscale) a = map (map Some) (gray_values lab) /\
    Forall (Forall (fun x => in_unit_interval x = true)) a.
Proof.
  intros Hfile Hmode Hwf Hbin.
  pose proof (gray_values_uint8 h w lab Hwf) as Hu8.
  rewrite (load_label_gray cls self fs name lab Hfile Hmode), Hbin.
  eexists. split; [reflexivity|]. split.
  - rewrite map_map.
    apply (map_ext_Forall (Forall (fun v => 0 <= v < 256))); [|exact Hu8].
    intros row Hrow. rewrite map_map.
    apply (map_ext_Forall (fun v => 0 <= v < 256)); [|exact Hrow].
    exact rescale_unscale.
  - apply Forall_map. revert Hu8. apply Forall_impl. intros row Hrow.
    apply Forall_map. revert Hrow. apply Forall_impl.
    exact rescale_in_unit_interval.
Qed.

Lemma rescale_round_trip_witness :
  exists a,
    load_label GDIDataLayerImp (Demo.layer0 "train" true None false 0)
      Demo.fs "b" = Ok (FloatArray (Rank3 [a])) /\
    map (map unscale) a = [[Some 171; Some 169]; [Some 1; Some 254]].
Proof.
  destruct (rescale_round_trip GDIDataLayerImp
              (Demo.layer0 "train" true None false 0) Demo.fs "b" Demo.label_b 2 2
              eq_refl eq_refl) as (a & Hload & Hun & _).
  - split.
    + split; [reflexivity|]. repeat constructor.
    + repeat constructor; cbn; lia.
  - reflexivity.
  - exists a. split; [exact Hload|exact Hun].
Defined.

(** X11. The two label modes agree: on the same single-band label image,
    the boolean array that [load_label] returns with binarize is the array
    it returns without binarize, thresholded entry by entry at 2/3. *)
Theorem binarize_is_rescale_thresholded (cls : layer_class) (sb sf : layer)
  (fs : filesystem) (name : string) (lab : pil_image) (h w : nat) :
  maindir sb = maindir sf ->
  binarize sb = true ->
  binarize sf = false ->
  fs_image fs (maindir sf ++ "/GDI/" ++ label_dir cls ++ "/" ++ name ++ ".png")
    = Some lab ->
  im_mode lab = L ->
  wf_image h w lab ->
  exists a,
    load_label cls sf fs name = Ok (FloatArray (Rank3 [a])) /\
    load_label cls sb fs name =
      Ok (BoolArray (Rank3 [map (map exceeds_two_thirds) a])).
Proof.
  intros Hdir Hb Hf Hfile Hmode Hwf.
  pose proof (gray_values_uint8 h w lab Hwf) as Hu8.
  rewrite (load_label_gray cls sf fs name lab Hfile Hmode), Hf.
  rewrite <- Hdir in Hfile.
  rewrite (load_label_gray cls sb fs name lab Hfile Hmode), Hb.
  eexists. split; [reflexivity|].
  do 4 f_equal. rewrite map_map.
  apply (map_ext_Forall (Forall (fun v => 0 <= v < 256))); [|exact Hu8].
  intros row Hrow. rewrite map_map.
  apply (map_ext_Forall (fun v => 0 <= v < 256)); [|exact Hrow].
  exact threshold_of_rescaled.
Qed.

Lemma binarize_is_rescale_thresholded_witness :
  exists a,
    load_label GDIDataLayerImp (Demo.layer0 "train" true None false 0)
      Demo.fs "a" = Ok (FloatArray (Rank3 [a])) /\
    load_label GDIDataLayerImp (Demo.layer0 "train" true None true 0)
      Demo.fs "a" = Ok (BoolArray (Rank3 [map (map exceeds_two_thirds) a])).
Proof.
  refine (binarize_is_rescale_thresholded GDIDataLayerImp
            (Demo.layer0 "train" true None true 0)
            (Demo.layer0 "train" true None false 0) Demo.fs "a" Demo.label_a 2 2
            eq_refl eq_refl eq_refl eq_refl eq_refl _).
  split.
  - split; [reflexivity|]. repeat constructor.
  - repeat constructor; cbn; lia.
Defined.

(** X12. [load_label] raises only when the file cannot be opened: it has
    no check of the band count, and a label image with several bands comes
    back as an array of rank 4 and shape (1, h, w, bands). *)
Theorem load_label_any_bands (cls : layer_class) (self : layer) (fs : filesystem)
  (name : string) :
  let path := maindir self ++ "/GDI/" ++ label_dir cls ++ "/" ++ name ++ ".png" in
  (fs_image fs path = None ->
   load_label cls self fs name = Raise (IOError path)) /\
  (forall lab, fs_image fs path = Some lab ->
     is_ok (load_label cls self fs name) = true) /\
  (forall lab h w,
     fs_image fs path = Some lab ->
     im_mode lab <> L ->
     wf_image h w lab ->
     (1 <= h)%nat -> (1 <= w)%nat ->
     exists l,
       load_label cls self fs name = Ok l /\
       label_shape l = [1; h; w; bands (im_mode lab)]%nat).
Proof.
  intros path. unfold load_label, Image_open. fold path.
  split; [|split].
  - intros ->. reflexivity.
  - intros lab ->. cbn [bind]. destruct (binarize self); reflexivity.
  - intros lab h w -> Hmode [[Hlen Hrows] _] Hh Hw. cbn [bind].
    assert (Hnp : np_array lab = Banded (im_px lab)).
    { unfold np_array. destruct (im_mode lab); [contradiction|reflexivity..]. }
    rewrite Hnp.
    assert (Hshape : forall (A : Type) (f : Z -> A),
               nd_shape (newaxis_map f (Banded (im_px lab))) =
               [1; h; w; bands (im_mode lab)]%nat).
    { intros A f. cbn [newaxis_map nd_shape length hd]. unfold shape3.
      destruct (im_px lab) as [|row rows]; cbn [length] in Hlen; [lia|].
      inversion Hrows as [|? ? [Hrow Hpx] _]; subst.
      cbn [map hd length]. rewrite !length_map.
      destruct row as [|p ps]; cbn [length] in Hw; [lia|].
      inversion Hpx as [|? ? Hp _]; subst.
      cbn [map hd length]. rewrite length_map, Hp. reflexivity. }
    destruct (binarize self); eexists; (split; [reflexivity|]);
      cbn [label_shape]; apply Hshape.
Qed.

(** ** Line ends of the manifest *)

Lemma plain_append (a b : string) : plain (a ++ b) = plain a && plain b.
Proof.
  induction a as [|c a IH]; cbn; [reflexivity|].
  rewrite IH. apply andb_assoc.
Qed.

(** No line that [splitlines] returns holds a line boundary. *)
Lemma splitlines_from_plain (n : nat) :
  forall s cur,
    (String.length s <= n)%nat ->
    plain cur = true ->
    Forall (fun l => plain l = true) (splitlines_from cur s).
Proof.
  induction n as [|n IH]; intros s cur Hlen Hcur.
  - destruct s; [|cbn in Hlen; lia].
    cbn. destruct cur; repeat constructor. exact Hcur.
  - destruct s as [|c s]; cbn [splitlines_from].
    + destruct cur; repeat constructor. exact Hcur.
    + cbn [String.length] in Hlen.
      destruct (is_linebreak c) eqn:Ec.
      * destruct (Ascii.eqb c CR).
        -- destruct s as [|c' s'].
           ++ constructor; [exact Hcur|]. apply IH; [cbn; lia|reflexivity].
           ++ cbn [String.length] in Hlen.
              destruct (Ascii.eqb c' LF); (constructor; [exact Hcur|]);
                apply IH; cbn [String.length]; try lia; reflexivity.
        -- constructor; [exact Hcur|]. apply IH; [lia|reflexivity].
      * apply IH; [lia|].
        rewrite plain_append, Hcur. cbn. rewrite Ec. reflexivity.
Qed.

Lemma splitlines_from_line_crlf (l : string) :
  forall cur rest,
    plain l = true ->
    splitlines_from cur (l ++ String CR (String LF rest)) =
      (cur ++ l) :: splitlines_from "" rest.
Proof.
  induction l as [|c l IH]; intros cur rest Hp.
  - cbn. rewrite append_empty_r. reflexivity.
  - cbn [plain] in Hp. apply andb_true_iff in Hp. destruct Hp as [Hc Hl].
    apply negb_true_iff in Hc.
    cbn [append splitlines_from]. rewrite Hc.
    rewrite (IH _ _ Hl), append_assoc. reflexivity.
Qed.

Lemma splitlines_unlines_crlf (ls : list string) :
  Forall (fun l => plain l = true) ls ->
  splitlines (unlines_crlf ls) = ls.
Proof.
  unfold splitlines. intros Hls.
  induction Hls as [|l ls Hl _ IH]; [reflexivity|].
  cbn [unlines_crlf].
  rewrite (splitlines_from_line_crlf l "" _ Hl), IH. reflexivity.
Qed.

Section LineEnds.

Context {R : PyRandom}.

(** X13. Whatever the manifest holds, no entry of the index list contains
    a line-boundary character, so no identifier carries a stray carriage
    return into a file name; and a manifest whose lines end in carriage
    return and line feed gives the index list of its lines, the same as
    with line feeds alone. *)
Theorem index_entries_are_plain (cls : layer_class) (prm : params)
  (fs : filesystem) (entropy : Z) (g : rng) (bottom top : list blob)
  (st : layer) (g' : rng) (dir sp content : string) :
  setup cls prm fs entropy g bottom top = Ok (st, g') ->
  p_dir prm = Some dir ->
  p_split prm = Some sp ->
  fs_text fs (dir ++ "/GDI/" ++ sp ++ ".txt") = Some content ->
  Forall (fun l => plain l = true) (indices st) /\
  forall ls,
    Forall (fun l => plain l = true) ls ->
    content = unlines_crlf ls ->
    indices st = ls /\ indices st = splitlines (unlines ls).
Proof.
  intros Hsetup Hdir Hsp Hfile.
  destruct (setup_inv _ _ _ _ _ _ _ _ _ Hsetup)
    as (dir' & sp' & m & b & content' & Hdir' & Hsp' & _ & _ & _ & _ & Hfile' & _ & _
        & _ & _ & _ & Hind & _).
  rewrite Hdir in Hdir'. injection Hdir' as <-.
  rewrite Hsp in Hsp'. injection Hsp' as <-.
  rewrite Hfile in Hfile'. injection Hfile' as <-.
  rewrite Hind. split.
  - apply (splitlines_from_plain (String.length content)); [lia|reflexivity].
  - intros ls Hls ->.
    rewrite (splitlines_unlines_crlf ls Hls). split; [reflexivity|].
    rewrite <- (append_empty_r (unlines ls)).
    rewrite (splitlines_unlines ls "" Hls eq_refl). symmetry. apply app_nil_r.
Qed.

End LineEnds.

Lemma index_entries_are_plain_witness :
  exists st,
    @setup lcg_random GDIDataLayerImp (Demo.prm "valid" None None true)
      fs_crlf 0 7 [] Demo.tops = Ok (st, 7) /\
    indices st = ["a"; ""; "b"].
Proof.
  assert (E : exists st,
             @setup lcg_random GDIDataLayerImp (Demo.prm "valid" None None true)
               fs_crlf 0 7 [] Demo.tops = Ok (st, 7))
    by (eexists; vm_compute; reflexivity).
  destruct E as (st & E). exists st. split; [exact E|].
  refine (proj1 (proj2 (@index_entries_are_plain lcg_random GDIDataLayerImp
                          (Demo.prm "valid" None None true) fs_crlf 0 7 []
                          Demo.tops st 7 "/data" "valid"
                          (unlines_crlf ["a"; ""; "b"]) E eq_refl eq_refl eq_refl)
                   ["a"; ""; "b"] _ eq_refl)).
  repeat constructor.
Defined.

(** ** Any band count *)

Lemma isub_broadcast (in_ : arr3 float) (c : nat) (mean : list float)
  (out : arr3 float) :
  isub in_ c mean = Ok out ->
  length (broadcast_mean mean c) = c /\
  out = map (map (fun px : list float =>
                    map (fun vm => to_float32 (fst vm - snd vm)%float)
                      (combine px (broadcast_mean mean c))))
          in_.
Proof.
  unfold isub, broadcast_mean.
  destruct (Nat.eqb_spec (length mean) c) as [E|E].
  - intros H. injection H as <-. split; [exact E|reflexivity].
  - destruct mean as [|m [|m' rest]]; try discriminate.
    intros H. injection H as <-. cbn [hd]. split; [apply repeat_length|reflexivity].
Qed.

(** One entry of a pixel after reversal and subtraction. *)
Lemma pixel_entry (p : list Z) (m : list float) (k : nat) :
  length m = length p ->
  (k < length p)%nat ->
  nth k (map (fun vm => to_float32 (fst vm - snd vm)%float)
           (combine (rev (map of_uint8 p)) m)) 0%float =
  to_float32 (PrimFloat.sub (of_uint8 (nth (length p - 1 - k)%nat p 0))
                            (nth k m 0%float)).
Proof.
  intros Hm Hk.
  assert (Hrev : length (rev (map of_uint8 p)) = length p)
    by (rewrite length_rev, length_map; reflexivity).
  rewrite (nth_map_lt _ _ k (0%float, 0%float))
    by (rewrite length_combine, Hrev, Hm; lia).
  rewrite combine_nth by (rewrite Hrev, Hm; reflexivity).
  cbn [fst snd].
  rewrite rev_nth by (rewrite length_map; exact Hk).
  rewrite length_map.
  rewrite (nth_map_lt of_uint8 p _ 0) by lia.
  replace (length p - S k)%nat with (length p - 1 - k)%nat by lia.
  reflexivity.
Qed.

(** X14. Whatever the band count: when [load_image] returns, its result
    has one plane per band, shape (bands, h, w), and entry (c, y, x) is the
    source value of band [bands - 1 - c] at (y, x), as float, minus the
    mean of plane c, stored as float32; a mean of a single entry is the mean
    of every plane. *)
Theorem load_image_any_bands (cls : layer_class) (self : layer) (fs : filesystem)
  (name : string) (im : pil_image) (h w : nat) (t : arr3 float) :
  fs_image fs (maindir self ++ "/GDI/" ++ image_dir cls ++ "/" ++ name ++ ".jpg")
    = Some im ->
  wf_image h w im ->
  load_image cls self fs name = Ok t ->
  let c := bands (im_mode im) in
  has_shape3 c h w t /\
  forall k y x,
    (k < c)%nat -> (y < h)%nat -> (x < w)%nat ->
    nth x (nth y (nth k t []) []) 0%float =
      to_float32
        (PrimFloat.sub
           (of_uint8 (nth (c - 1 - k)%nat (nth x (nth y (im_px im) []) []) 0))
           (nth k (broadcast_mean (mean self) c) 0%float)).
Proof.
  intros Hfile [Hshape _] Hload c.
  unfold load_image, Image_open in Hload. rewrite Hfile in Hload.
  cbn [bind] in Hload. unfold np_array in Hload.
  assert (Hb : exists in_,
             isub (map (map (@rev float)) (map (map (map of_uint8)) (im_px im)))
               c (mean self) = Ok in_ /\ t = transpose_201 c in_).
  { destruct (im_mode im); [discriminate Hload|..];
      apply bind_ok in Hload; destruct Hload as (in_ & Hsub & Ht);
      injection Ht as <-; exists in_; (split; [exact Hsub|reflexivity]). }
  destruct Hb as (in_ & Hsub & ->).
  apply isub_broadcast in Hsub. destruct Hsub as [Hlen ->].
  fold c in Hshape. rewrite !map_map.
  set (m := broadcast_mean (mean self) c) in *.
  set (f := fun p : list Z =>
              map (fun vm => to_float32 (fst vm - snd vm)%float)
                (combine (rev (map of_uint8 p)) m)).
  assert (Hin : map (fun x : list (list Z) =>
                       map (fun px : list float =>
                              map (fun vm => to_float32 (fst vm - snd vm)%float)
                                (combine px m))
                         (map (@rev float) (map (map of_uint8) x)))
                  (im_px im) = map (map f) (im_px im)).
  { apply map_ext. intros row. rewrite !map_map. reflexivity. }
  rewrite Hin. unfold transpose_201. split.
  - split; [rewrite length_map, length_seq; reflexivity|].
    apply Forall_map. apply Forall_forall. intros k _.
    apply has_shape2_map. exact (has_shape2_map_map h w c _ _ Hshape).
  - intros k y x Hk Hy Hx.
    assert (Hrows : length (im_px im) = h) by (destruct Hshape as [-> _]; reflexivity).
    assert (Hrow : length (nth y (im_px im) []) = w)
      by exact (has_shape3_row h w c _ y Hshape Hy).
    rewrite (nth_map_lt _ (seq 0 c) k 0%nat) by (rewrite length_seq; exact Hk).
    rewrite seq_nth by exact Hk. cbn [Nat.add].
    rewrite (nth_map_lt _ (map (map f) (im_px im)) y [])
      by (rewrite length_map, Hrows; exact Hy).
    rewrite (nth_map_lt _ (im_px im) y []) by (rewrite Hrows; exact Hy).
    rewrite (nth_map_lt _ (map f (nth y (im_px im) [])) x [])
      by (rewrite length_map, Hrow; exact Hx).
    rewrite (nth_map_lt _ (nth y (im_px im) []) x []) by (rewrite Hrow; exact Hx).
    assert (Hp : length (nth x (nth y (im_px im) []) []) = c).
    { pose proof (has_shape3_pixels _ _ _ _ Hshape) as Hpx.
      rewrite Forall_forall in Hpx.
      assert (Hyin : In (nth y (im_px im) []) (im_px im))
        by (apply nth_In; rewrite Hrows; exact Hy).
      specialize (Hpx _ Hyin). rewrite Forall_forall in Hpx.
      apply Hpx. apply nth_In. rewrite Hrow. exact Hx. }
    unfold f. rewrite pixel_entry by (rewrite Hp; first [exact Hlen | exact Hk]).
    rewrite Hp. reflexivity.
Qed.

Lemma cmyk_wf : wf_image 2 2 Odd.cmyk.
Proof.
  split.
  - split; [reflexivity|]. repeat constructor.
  - repeat constructor; cbn; lia.
Qed.

Lemma load_image_any_bands_witness :
  exists t,
    load_image GDIDataLayerImp scalar_mean_layer Odd.fs "cmyk" = Ok t /\
    has_shape3 4 2 2 t /\
    nth 0 (nth 0 (nth 0 t []) []) 0%float = (-100)%float.
Proof.
  assert (E : exists t,
             load_image GDIDataLayerImp scalar_mean_layer Odd.fs "cmyk" = Ok t)
    by (eexists; vm_compute; reflexivity).
  destruct E as (t & E). exists t. split; [exact E|].
  destruct (load_image_any_bands GDIDataLayerImp scalar_mean_layer Odd.fs "cmyk"
              Odd.cmyk 2 2 t eq_refl cmyk_wf E) as [Hshape Hnth].
  split; [exact Hshape|].
  rewrite (Hnth 0%nat 0%nat 0%nat) by (cbn; lia).
  reflexivity.
Defined.

(** ** The order of the calls *)

Section Lifecycle.

Context {R : PyRandom}.

(** X16. [forward] needs a [reshape] before it: on the layer that [setup]
    returns, which has no [data] yet, it raises [AttributeError], whatever
    the tops are, and leaves nothing changed. *)
Theorem forward_needs_reshape (cls : layer_class) (prm : params)
  (fs : filesystem) (entropy : Z) (g : rng) (bottom top : list blob)
  (st : layer) (g' : rng) :
  setup cls prm fs entropy g bottom top = Ok (st, g') ->
  data st = None /\ label st = None /\
  forall g0 bottom0 top0,
    forward st g0 bottom0 top0 = Raise (AttributeError "data").
Proof.
  intros Hsetup.
  destruct (setup_inv _ _ _ _ _ _ _ _ _ Hsetup)
    as (dir & sp & m & b & content & _ & _ & _ & _ & _ & _ & _ & _ & _ & _ & _
        & _ & _ & _ & Hd & Hl & _).
  split; [exact Hd|]. split; [exact Hl|].
  intros g0 bottom0 top0. unfold forward. rewrite Hd. reflexivity.
Qed.

End Lifecycle.

Lemma forward_needs_reshape_witness :
  @forward lcg_random valid_layer 7 [] Demo.tops = Raise (AttributeError "data").
Proof.
  refine (proj2 (proj2 (@forward_needs_reshape lcg_random GDIDataLayerImp
                          (Demo.prm "valid" (Some true) None true)
                          Demo.fs 0 7 [] Demo.tops valid_layer 7 _))
           7 [] Demo.tops).
  reflexivity.
Defined.

(** ** What a step writes, and why a step fails *)

Section Steps.

Context {R : PyRandom}.

(** X17. A step delivers the sample at the cursor it starts with: when
    [reshape] and [forward] succeed on two tops, the image and label are
    those of the entry [indices[idx]] for the cursor before the step, the
    layer keeps them as [data] and [label], and the tops end up announced as
    one batch of that image and that label and holding exactly these two
    arrays, whatever they held before; the cursor moves only afterwards. *)
Theorem step_outputs_current_sample (cls : layer_class) (fs : filesystem)
  (self : layer) (g : rng) (t0 t1 : blob) (self' : layer) (g' : rng)
  (top' : list blob) :
  step cls fs self g [t0; t1] = Ok (self', g', top') ->
  exists name d l,
    getitem (indices self) (idx self) = Ok name /\
    load_image cls self fs name = Ok d /\
    load_label cls self fs name = Ok l /\
    data self' = Some d /\ label self' = Some l /\
    top' = [ {| blob_shape := 1%nat :: shape3 d; blob_data := Some (ImageData d) |};
             {| blob_shape := 1%nat :: label_shape l;
                blob_data := Some (LabelData l) |} ].
Proof.
  intros H. unfold step in H.
  apply bind_ok in H. destruct H as ([self1 top1] & Hre & Hfw).
  destruct (reshape_result _ _ _ _ _ _ _ Hre)
    as (name & d & l & b0 & b1 & rest & Hname & Hd & Hl & Htop & -> & ->).
  injection Htop as <- <- <-.
  exists name, d, l.
  split; [exact Hname|]. split; [exact Hd|]. split; [exact Hl|].
  destruct (forward_writes (set_label (set_data self d) l) g []
              (blob_reshape t0 (1%nat :: shape3 d))
              (blob_reshape t1 (1%nat :: label_shape l)) d l
              eq_refl eq_refl eq_refl eq_refl) as (top2 & Htop2 & _ & Heq).
  rewrite Heq in Hfw. cbn [blob_reshape blob_shape] in Htop2.
  destruct (random (set_label (set_data self d) l)).
  - apply bind_ok in Hfw. destruct Hfw as ([i g2] & _ & Hfw).
    injection Hfw as <- _ <-. repeat split. exact Htop2.
  - injection Hfw as <- _ <-. repeat split. exact Htop2.
Qed.

(** On a cursor that is on the list and with two tops, a step either
    succeeds and keeps both, or fails with the exception of one of the two
    loaders on a listed entry. *)
Lemma step_outcome (cls : layer_class) (fs : filesystem) (self : layer)
  (g : rng) (top : list blob) :
  0 <= idx self < Z.of_nat (length (indices self)) ->
  length top = 2%nat ->
  (exists d l i g' top',
     step cls fs self g top = Ok (set_idx (set_label (set_data self d) l) i, g', top') /\
     0 <= i < Z.of_nat (length (indices self)) /\
     length top' = 2%nat) \/
  (exists name e,
     In name (indices self) /\
     step cls fs self g top = Raise e /\
     (load_image cls self fs name = Raise e \/
      load_label cls self fs name = Raise e)).
Proof.
  intros Hidx Htop.
  destruct top as [|t0 [|t1 [|? ?]]]; try discriminate Htop.
  destruct (getitem_in_range (indices self) (idx self) Hidx) as (name & Hname & Hnth).
  pose proof (nth_error_In _ _ Hnth) as Hin.
  assert (Hre : reshape cls self fs [] [t0; t1] =
                d <- load_image cls self fs name;;
                l <- load_label cls self fs name;;
                Ok (set_label (set_data self d) l,
                    [blob_reshape t0 (1%nat :: shape3 d);
                     blob_reshape t1 (1%nat :: label_shape l)])).
  { unfold reshape. rewrite Hname. cbn [bind].
    destruct (load_image cls self fs name) as [d|e]; [|reflexivity].
    cbn [bind].
    change (indices (set_data self d)) with (indices self).
    change (idx (set_data self d)) with (idx self).
    rewrite Hname. cbn [bind].
    change (load_label cls (set_data self d) fs name)
      with (load_label cls self fs name).
    destruct (load_label cls self fs name) as [l|e]; reflexivity. }
  unfold step. rewrite Hre.
  destruct (load_image cls self fs name) as [d|e] eqn:Ed.
  2: { right. exists name, e. split; [exact Hin|]. split; [reflexivity|].
       left. exact Ed. }
  destruct (load_label cls self fs name) as [l|e] eqn:El.
  2: { right. exists name, e. split; [exact Hin|]. split; [reflexivity|].
       right. exact El. }
  left. cbn [bind].
  destruct (forward_writes (set_label (set_data self d) l) g []
              (blob_reshape t0 (1%nat :: shape3 d))
              (blob_reshape t1 (1%nat :: label_shape l)) d l
              eq_refl eq_refl eq_refl eq_refl) as (top2 & _ & Hlen & Heq).
  rewrite Heq.
  change (random (set_label (set_data self d) l)) with (random self).
  change (indices (set_label (set_data self d) l)) with (indices self).
  destruct (random self).
  - destruct (randint_total g 0 (Z.of_nat (length (indices self)) - 1))
      as (i & g' & Hdraw); [lia|].
    pose proof (randint_range _ _ _ _ _ Hdraw) as Hi.
    rewrite Hdraw. cbn [bind].
    exists d, l, i, g', top2. split; [reflexivity|]. split; [lia|exact Hlen].
  - exists d, l, (next_sequential (set_label (set_data self d) l)), g, top2.
    split; [reflexivity|]. split; [|exact Hlen].
    apply (next_sequential_range (set_label (set_data self d) l)). exact Hidx.
Qed.

Lemma steps_failure (cls : layer_class) (fs : filesystem) (k : nat) :
  forall (self : layer) (g : rng) (top : list blob) (e : exn),
    0 <= idx self < Z.of_nat (length (indices self)) ->
    length top = 2%nat ->
    steps cls fs k self g top = Raise e ->
    exists name,
      In name (indices self) /\
      (load_image cls self fs name = Raise e \/
       load_label cls self fs name = Raise e).
Proof.
  induction k as [|k IH]; intros self g top e Hidx Htop H; [discriminate H|].
  cbn [steps] in H.
  destruct (step_outcome cls fs self g top Hidx Htop)
    as [(d & l & i & g' & top' & Hstep & Hi & Hlen)|(name & e' & Hin & Hstep & Hload)].
  - rewrite Hstep in H. cbn [bind] in H.
    destruct (steps cls fs k (set_idx (set_label (set_data self d) l) i) g' top')
      as [[visited final]|e'] eqn:Es; [discriminate H|].
    cbn [bind] in H. injection H as <-.
    exact (IH (set_idx (set_label (set_data self d) l) i) g' top' e' Hi Hlen Es).
  - rewrite Hstep in H. cbn [bind] in H. injection H as <-.
    exists name. split; assumption.
Qed.

(** X18. After a successful [setup] on a manifest that is not empty, the
    only way for a run of samples to fail is a listed entry whose image or
    label does not load: the exception of the run is the exception that
    [load_image] or [load_label] raises on that entry. *)
Theorem run_fails_only_on_samples (cls : layer_class) (prm : params)
  (fs : filesystem) (entropy : Z) (g : rng) (bottom top : list blob)
  (st : layer) (g' : rng) (k : nat) (e : exn) :
  setup cls prm fs entropy g bottom top = Ok (st, g') ->
  indices st <> [] ->
  steps cls fs k st g' top = Raise e ->
  exists name,
    In name (indices st) /\
    (load_image cls st fs name = Raise e \/ load_label cls st fs name = Raise e).
Proof.
  intros Hsetup Hne Hsteps.
  destruct (setup_inv _ _ _ _ _ _ _ _ _ Hsetup)
    as (dir & sp & m & b & content & _ & _ & _ & _ & Htop & _ & _ & _ & _ & _ & _
        & _ & Hind & _ & _ & _ & Hcur).
  assert (Hidx : 0 <= idx st < Z.of_nat (length (indices st))).
  { rewrite Hind. destruct (random st).
    - apply randint_range in Hcur. lia.
    - destruct Hcur as [-> _]. rewrite <- Hind.
      destruct (indices st); [contradiction|cbn [length]; lia]. }
  exact (steps_failure cls fs k st g' top e Hidx Htop Hsteps).
Qed.

End Steps.

Lemma step_outputs_current_sample_witness :
  exists self' g' d l,
    @step lcg_random GDIDataLayerImp Demo.fs
      (Demo.layer0 "valid" false None true 1) 7 Demo.tops =
      Ok (self', g',
          [ {| blob_shape := [1; 3; 2; 2]%nat; blob_data := Some (ImageData d) |};
            {| blob_shape := [1; 1; 2; 2]%nat; blob_data := Some (LabelData l) |} ]) /\
    load_image GDIDataLayerImp (Demo.layer0 "valid" false None true 1) Demo.fs "b"
      = Ok d /\
    idx self' = 0.
Proof.
  assert (E : exists self' g' top',
             @step lcg_random GDIDataLayerImp Demo.fs
               (Demo.layer0 "valid" false None true 1) 7 Demo.tops =
               Ok (self', g', top') /\ idx self' = 0)
    by (do 3 eexists; split; vm_compute; reflexivity).
  destruct E as (self' & g' & top' & E & Hidx).
  destruct (@step_outputs_current_sample lcg_random GDIDataLayerImp Demo.fs
              (Demo.layer0 "valid" false None true 1) 7 Demo.blank Demo.blank
              self' g' top' E)
    as (name & d & l & Hname & Hd & Hl & _ & _ & Htop).
  assert (Hb : name = "b") by (injection Hname as <-; reflexivity).
  subst name.
  assert (Hsd : shape3 d = [3; 2; 2]%nat).
  { assert (Hd' : load_image GDIDataLayerImp
                    (Demo.layer0 "valid" false None true 1) Demo.fs "b" =
                  Ok (reference_bgr (im_px Demo.image_b) Demo.mean_bgr))
      by reflexivity.
    rewrite Hd in Hd'. injection Hd' as ->. reflexivity. }
  assert (Hsl : label_shape l = [1; 2; 2]%nat).
  { assert (Hl' : exists a, load_label GDIDataLayerImp
                    (Demo.layer0 "valid" false None true 1) Demo.fs "b" =
                    Ok (BoolArray (Rank3 [a])) /\ length a = 2%nat /\
                    length (hd [] a) = 2%nat)
      by (eexists; split; [reflexivity|split; reflexivity]).
    destruct Hl' as (a & Hl' & Ha & Hb).
    rewrite Hl in Hl'. injection Hl' as ->.
    cbn [label_shape nd_shape]. unfold shape3. cbn [length hd].
    rewrite Ha, Hb. reflexivity. }
  exists self', g', d, l.
  rewrite Hsd, Hsl in Htop. cbn [app] in Htop.
  rewrite Htop in E. split; [exact E|]. split; [exact Hd|exact Hidx].
Defined.

Lemma run_fails_only_on_samples_witness :
  @steps lcg_random GDIDataLayerImp fs_gap 2 gap_layer 7 Demo.tops =
    Raise (IOError "/data/GDI/gd_train/a.jpg") /\
  exists name,
    In name (indices gap_layer) /\
    (load_image GDIDataLayerImp gap_layer fs_gap name =
       Raise (IOError "/data/GDI/gd_train/a.jpg") \/
     load_label GDIDataLayerImp gap_layer fs_gap name =
       Raise (IOError "/data/GDI/gd_train/a.jpg")).
Proof.
  assert (Hs : @setup lcg_random GDIDataLayerImp (Demo.prm "valid" None None true)
                 fs_gap 0 7 [] Demo.tops = Ok (gap_layer, 7)) by reflexivity.
  assert (E : @steps lcg_random GDIDataLayerImp fs_gap 2 gap_layer 7 Demo.tops =
              Raise (IOError "/data/GDI/gd_train/a.jpg")) by reflexivity.
  split; [exact E|].
  refine (@run_fails_only_on_samples lcg_random GDIDataLayerImp
            (Demo.prm "valid" None None true) fs_gap 0 7 [] Demo.tops
            gap_layer 7 2 _ Hs _ E).
  discriminate.
Defined.
